(** * Fuzzy traffic-light controller: decision engine and phase sequencer

    Shallow embedding of [fuzzy_traffic_controller.py] and
    [traffic_simulation.py].  Numbers are exact rationals ([Q]): Python's
    ints and floats are both read as the rationals they denote, so
    rounding of IEEE arithmetic is outside this development. *)

From Stdlib Require Import QArith Qminmax ZArith List Lia Lqa.
From stdpp Require Import base option gmap strings list.
Import ListNotations.

Local Open Scope Q_scope.

(** ** Part I: the decision engine ([fuzzy_traffic_controller.py]) *)

(** Labels of the three linguistic variables ([self.queue_length[...]],
    [self.waiting_time[...]], [self.green_time[...]]). *)
Inductive QueueTerm := q_low | q_medium | q_high.
Inductive WaitTerm := w_short | w_medium | w_long.
Inductive GreenTerm := g_short | g_medium | g_long.

Definition Qlt_bool (x y : Q) : bool := negb (Qle_bool y x).

(** Modelled from the spec: [fuzz.trimf] of the external fuzzy library is
    not part of the repository.  Section 3 of the specification describes a
    membership function as the triangular shape [(a, b, c)] with
    [a <= b <= c], of degree 1 at the peak [b], linear on both flanks and
    0 outside [[a, c]]. *)
Definition trimf (abc : Q * Q * Q) (x : Q) : Q :=
  let '(a, b, c) := abc in
  if Qeq_bool x b then 1
  else if Qlt_bool a x && Qlt_bool x b then (x - a) / (b - a)
  else if Qlt_bool b x && Qlt_bool x c then (c - x) / (c - b)
  else 0.

(** The breakpoints given in [setup_fuzzy_system]. *)
Definition queue_length_abc (t : QueueTerm) : Q * Q * Q :=
  match t with
  | q_low => (0, 0, 15)
  | q_medium => (10, 25, 40)
  | q_high => (35, 50, 50)
  end.

Definition waiting_time_abc (t : WaitTerm) : Q * Q * Q :=
  match t with
  | w_short => (0, 0, 100)
  | w_medium => (60, 150, 240)
  | w_long => (200, 300, 300)
  end.

Definition green_time_abc (t : GreenTerm) : Q * Q * Q :=
  match t with
  | g_short => (10, 10, 30)
  | g_medium => (25, 50, 75)
  | g_long => (60, 90, 90)
  end.

(** [np.arange(start, stop, 1)]. *)
Definition arange (start stop : Z) : list Q :=
  map (fun k => inject_Z (start + Z.of_nat k)) (seq 0 (Z.to_nat (stop - start))).

(** [self.green_time = ctrl.Consequent(np.arange(10, 91, 1), 'green_time')]. *)
Definition green_time_universe : list Q := arange 10 91.

(** [ctrl.Rule(self.queue_length[a] & self.waiting_time[b], self.green_time[c])]. *)
Record Rule := mkRule {
  rule_queue : QueueTerm;
  rule_wait : WaitTerm;
  rule_green : GreenTerm
}.

(** [create_rules]: the nine rules, in the order of the source. *)
Definition rules : list Rule :=
  [ mkRule q_low w_short g_short;
    mkRule q_low w_medium g_short;
    mkRule q_low w_long g_medium;
    mkRule q_medium w_short g_medium;
    mkRule q_medium w_medium g_medium;
    mkRule q_medium w_long g_long;
    mkRule q_high w_short g_medium;
    mkRule q_high w_medium g_long;
    mkRule q_high w_long g_long ].

Definition GreenTerm_eqb (a b : GreenTerm) : bool :=
  match a, b with
  | g_short, g_short | g_medium, g_medium | g_long, g_long => true
  | _, _ => false
  end.

Definition Qsum (l : list Q) : Q := fold_right Qplus 0 l.

Section Inference.

(** Degrees of truth of the two antecedent variables (the result of
    fuzzification). *)
Variable queue_degree : QueueTerm -> Q.
Variable wait_degree : WaitTerm -> Q.

(** Modelled from the spec: the rule evaluation of the external fuzzy
    library ([ControlSystemSimulation.compute]) is not part of the
    repository.  Section 4.1, step 2: the firing strength of a rule is the
    minimum of the degrees of its two antecedent labels. *)
Definition firing_strength (r : Rule) : Q :=
  Qmin (queue_degree (rule_queue r)) (wait_degree (rule_wait r)).

(** Modelled from the spec: section 4.1, step 3: the aggregated strength
    of an output label is the maximum firing strength among the rules
    whose consequent is that label. *)
Definition aggregated_strength (g : GreenTerm) : Q :=
  fold_right Qmax 0
    (map firing_strength
       (List.filter (fun r => GreenTerm_eqb (rule_green r) g) rules)).

(** Modelled from the spec: section 4.1, step 4: the three output
    membership functions, each clipped at its aggregated strength, are
    combined (pointwise maximum) into one fuzzy output set. *)
Definition output_membership (x : Q) : Q :=
  Qmax (Qmin (aggregated_strength g_short) (trimf (green_time_abc g_short) x))
    (Qmax (Qmin (aggregated_strength g_medium) (trimf (green_time_abc g_medium) x))
          (Qmin (aggregated_strength g_long) (trimf (green_time_abc g_long) x))).

End Inference.

(** Modelled from the spec: the defuzzifier of the external fuzzy library is
    not part of the repository.  Section 4.1, step 4: the centroid of the
    fuzzy output set over the sampled universe (sum of [x * mu x] over sum
    of [mu x]); when the total membership is zero the result is the
    midpoint of the universe [[lo, hi]] instead of a division by zero. *)
Definition centroid (lo hi : Q) (universe : list Q) (mu : Q -> Q) : Q :=
  let total := Qsum (map mu universe) in
  if Qeq_bool total 0 then (lo + hi) / 2
  else Qsum (map (fun x => x * mu x) universe) / total.

(** Modelled from the spec: the whole inference from fuzzified degrees to
    the crisp output over the [green_time] universe [[10, 90]]. *)
Definition infer (queue_degree : QueueTerm -> Q) (wait_degree : WaitTerm -> Q) : Q :=
  centroid 10 90 green_time_universe (output_membership queue_degree wait_degree).

(** Modelled from the spec: section 4.1, step 1 (fuzzification) followed by
    the inference: what the library's simulation computes from the two
    crisp inputs it was given. *)
Definition mamdani (queue_len wait_time : Q) : Q :=
  infer (fun t => trimf (queue_length_abc t) queue_len)
        (fun t => trimf (waiting_time_abc t) wait_time).

(** [ctrl.ControlSystemSimulation]: the inference session kept in
    [self.controller], with its [input] and [output] tables. *)
Record ControlSystemSimulation := mkSimulation {
  input : gmap string Q;
  output : gmap string Q
}.

(** Modelled from the spec: [ControlSystemSimulation.compute] of the
    external fuzzy library: it reads the two inputs of the session (a
    missing input is an error) and stores the crisp result under the
    consequent's name. *)
Definition compute (sim : ControlSystemSimulation) : option ControlSystemSimulation :=
  queue_len ← input sim !! "queue_length"%string;
  wait_time ← input sim !! "waiting_time"%string;
  Some (mkSimulation (input sim)
          (<["green_time"%string := mamdani queue_len wait_time]> (output sim))).

Definition set_input (key : string) (value : Q) (sim : ControlSystemSimulation)
  : ControlSystemSimulation :=
  mkSimulation (<[key := value]> (input sim)) (output sim).

(** The controller object: the membership functions and rules are the
    constants above, the only mutable part is the session. *)
Record FuzzyTrafficController := mkController {
  controller : ControlSystemSimulation
}.

(** [FuzzyTrafficController()]: [__init__] calls [setup_fuzzy_system],
    which creates a fresh session. *)
Definition setup_fuzzy_system : FuzzyTrafficController :=
  mkController (mkSimulation ∅ ∅).

(** [compute_green_time(self, queue_len, wait_time)]: Python's
    [max(0, min(50, x))] keeps its first argument on ties, as [Qmax] and
    [Qmin] do.  [None] stands for an exception. *)
Definition compute_green_time (self : FuzzyTrafficController) (queue_len wait_time : Q)
  : option (Q * FuzzyTrafficController) :=
  let queue_len := Qmax 0 (Qmin 50 queue_len) in
  let wait_time := Qmax 0 (Qmin 300 wait_time) in
  let sim := set_input "queue_length" queue_len (controller self) in
  let sim := set_input "waiting_time" wait_time sim in
  sim ← compute sim;
  green_time ← output sim !! "green_time"%string;
  Some (green_time, mkController sim).

(** ** Part II: the phase sequencer ([traffic_simulation.py]) *)

(** What the simulator reports through [traci] after one
    [traci.simulationStep()]. *)
Record Traci := mkTraci {
  simulation_getTime : Q;
  lane_getLastStepHaltingNumber : string -> Z;
  lane_getLastStepVehicleIDs : string -> list string;
  vehicle_getWaitingTime : string -> Q;
  vehicle_getIDList : list string
}.

(** [self.stats]. *)
Record Stats := mkStats {
  total_waiting_time : Q;
  total_vehicles : nat;
  phase_changes : Z;
  avg_queue_lengths : list Z;
  avg_waiting_times : list Q
}.

(** The fields of a [TrafficSimulation] that change, the two locals of
    [run_simulation] ([step], [current_green_time]) and the commands sent
    with [traci.trafficlight.setPhase]. *)
Record TrafficSimulation := mkTrafficSimulation {
  fuzzy_controller : FuzzyTrafficController;
  current_phase : string;
  phase_start_time : Q;
  stats : Stats;
  step : nat;
  current_green_time : Q;
  setPhase_calls : list (string * nat)
}.

Definition tl_id : string := "0".

(** [self.phases]. *)
Definition phases : gmap string nat :=
  <["NS_green"%string := 0%nat]>
    (<["NS_yellow"%string := 1%nat]>
       (<["EW_green"%string := 2%nat]>
          (<["EW_yellow"%string := 3%nat]> ∅))).

(** [self.yellow_time]. *)
Definition yellow_time : Q := 3.

(** [self.lanes]. *)
Definition lanes : gmap string (list string) :=
  <["NS"%string := ["N2C_0"; "N2C_1"; "S2C_0"; "S2C_1"]%string]>
    (<["EW"%string := ["E2C_0"; "E2C_1"; "W2C_0"; "W2C_1"]%string]> ∅).

(** [TrafficSimulation.__init__], with the initial values of the locals of
    [run_simulation]. *)
Definition init : TrafficSimulation :=
  mkTrafficSimulation setup_fuzzy_system "NS_green" 0
    (mkStats 0 0 0 [] []) 0 30 [].

(** Python's [a / b] on numbers: division by zero raises. *)
Definition truediv (a b : Q) : option Q :=
  if Qeq_bool b 0 then None else Some (a / b).

(** [get_lane_metrics(self, lanes)]: the two nested loops, then the guarded
    average. *)
Definition get_lane_metrics (traci : Traci) (lanes : list string) : option (Z * Q) :=
  let '(total_queue, total_waiting, vehicle_count) :=
    fold_left
      (fun '(total_queue, total_waiting, vehicle_count) lane =>
         let halting := lane_getLastStepHaltingNumber traci lane in
         let total_queue := (total_queue + halting)%Z in
         let vehicles := lane_getLastStepVehicleIDs traci lane in
         let '(total_waiting, vehicle_count) :=
           fold_left
             (fun '(total_waiting, vehicle_count) veh =>
                let waiting_time := vehicle_getWaitingTime traci veh in
                (total_waiting + waiting_time, (vehicle_count + 1)%Z))
             vehicles (total_waiting, vehicle_count) in
         (total_queue, total_waiting, vehicle_count))
      lanes (0%Z, 0, 0%Z) in
  avg_waiting ←
    (if (0 <? vehicle_count)%Z
     then truediv total_waiting (inject_Z vehicle_count)
     else Some 0);
  Some (total_queue, avg_waiting).

(** [compute_optimal_green_time(self, direction)]. *)
Definition compute_optimal_green_time (traci : Traci) (self : TrafficSimulation)
    (direction : string) : option (Q * TrafficSimulation) :=
  lanes ← lanes !! direction;
  '(queue_length, waiting_time) ← get_lane_metrics traci lanes;
  '(green_time, fc) ←
    compute_green_time (fuzzy_controller self) (inject_Z queue_length) waiting_time;
  let st := stats self in
  let st := mkStats (total_waiting_time st) (total_vehicles st) (phase_changes st)
              (avg_queue_lengths st ++ [queue_length])
              (avg_waiting_times st ++ [waiting_time]) in
  Some (green_time,
        mkTrafficSimulation fc (current_phase self) (phase_start_time self) st
          (step self) (current_green_time self) (setPhase_calls self)).

(** [set_traffic_light_phase(self, phase_name)]: an unknown name raises
    [KeyError] before anything is changed. *)
Definition set_traffic_light_phase (traci : Traci) (self : TrafficSimulation)
    (phase_name : string) : option TrafficSimulation :=
  phase_index ← phases !! phase_name;
  Some (mkTrafficSimulation (fuzzy_controller self) phase_name
          (simulation_getTime traci) (stats self) (step self)
          (current_green_time self)
          (setPhase_calls self ++ [(tl_id, phase_index)])).

(** [self.stats['phase_changes'] += 1]. *)
Definition count_phase_change (self : TrafficSimulation) : TrafficSimulation :=
  let st := stats self in
  mkTrafficSimulation (fuzzy_controller self) (current_phase self)
    (phase_start_time self)
    (mkStats (total_waiting_time st) (total_vehicles st) (phase_changes st + 1)%Z
       (avg_queue_lengths st) (avg_waiting_times st))
    (step self) (current_green_time self) (setPhase_calls self).

Definition set_current_green_time (g : Q) (self : TrafficSimulation) : TrafficSimulation :=
  mkTrafficSimulation (fuzzy_controller self) (current_phase self)
    (phase_start_time self) (stats self) (step self) g (setPhase_calls self).

(** The [if]/[elif] chain of the loop body: the phase logic of one tick. *)
Definition sequencer_tick (traci : Traci) (self : TrafficSimulation)
  : option TrafficSimulation :=
  let current_time := simulation_getTime traci in
  let elapsed := current_time - phase_start_time self in
  if String.eqb (current_phase self) "NS_green" then
    if Qle_bool (current_green_time self) elapsed then
      self ← set_traffic_light_phase traci self "NS_yellow";
      Some (count_phase_change self)
    else Some self
  else if String.eqb (current_phase self) "NS_yellow" then
    if Qle_bool yellow_time elapsed then
      '(g, self) ← compute_optimal_green_time traci self "EW";
      set_traffic_light_phase traci (set_current_green_time g self) "EW_green"
    else Some self
  else if String.eqb (current_phase self) "EW_green" then
    if Qle_bool (current_green_time self) elapsed then
      self ← set_traffic_light_phase traci self "EW_yellow";
      Some (count_phase_change self)
    else Some self
  else if String.eqb (current_phase self) "EW_yellow" then
    if Qle_bool yellow_time elapsed then
      '(g, self) ← compute_optimal_green_time traci self "NS";
      set_traffic_light_phase traci (set_current_green_time g self) "NS_green"
    else Some self
  else Some self.

(** The rest of the loop body: vehicle statistics and [step += 1]. *)
Definition record_vehicles (traci : Traci) (self : TrafficSimulation) : TrafficSimulation :=
  let vehicles := vehicle_getIDList traci in
  let st := stats self in
  let waited :=
    fold_left (fun acc veh => acc + vehicle_getWaitingTime traci veh)
      vehicles (total_waiting_time st) in
  mkTrafficSimulation (fuzzy_controller self) (current_phase self)
    (phase_start_time self)
    (mkStats waited (length vehicles) (phase_changes st)
       (avg_queue_lengths st) (avg_waiting_times st))
    (S (step self)) (current_green_time self) (setPhase_calls self).

(** One iteration of [while step < duration]. *)
Definition loop_body (traci : Traci) (self : TrafficSimulation)
  : option TrafficSimulation :=
  self ← sequencer_tick traci self;
  Some (record_vehicles traci self).

(** The loop of [run_simulation], one simulator report per iteration. *)
Fixpoint run_loop (reports : list Traci) (self : TrafficSimulation)
  : option TrafficSimulation :=
  match reports with
  | [] => Some self
  | traci :: reports =>
      match loop_body traci self with
      | Some self => run_loop reports self
      | None => None
      end
  end.

(** [run_simulation(self, duration)]: at most [duration] iterations; the
    loop also ends when the simulator has no further report. *)
Definition run_simulation (duration : nat) (reports : list Traci)
  : option TrafficSimulation :=
  run_loop (take duration reports) init.

(** The phases entered by the transitions of a run, in order: one entry
    for each iteration that changes [current_phase]. *)
Fixpoint transitions (reports : list Traci) (self : TrafficSimulation) : list string :=
  match reports with
  | [] => []
  | traci :: reports =>
      match loop_body traci self with
      | Some self' =>
          if String.eqb (current_phase self') (current_phase self)
          then transitions reports self'
          else current_phase self' :: transitions reports self'
      | None => []
      end
  end.

(** Signal heads of the two directions. *)
Inductive Colour := GREEN | YELLOW | RED.

(** The traffic-light program addressed by the phase index, as listed by
    the safety check of [build_network.py]:
    phase 0: NS=GREEN, EW=RED; phase 1: NS=YELLOW, EW=RED;
    phase 2: NS=RED, EW=GREEN; phase 3: NS=RED, EW=YELLOW. *)
Definition phase_signals (phase_index : nat) : option (Colour * Colour) :=
  match phase_index with
  | 0%nat => Some (GREEN, RED)
  | 1%nat => Some (YELLOW, RED)
  | 2%nat => Some (RED, GREEN)
  | 3%nat => Some (RED, YELLOW)
  | _ => None
  end.

(** The signals shown while the sequencer is in a phase: (NS, EW). *)
Definition signals (self : TrafficSimulation) : option (Colour * Colour) :=
  phase_index ← phases !! current_phase self;
  phase_signals phase_index.

(** A simulator report at time [t] with no vehicle anywhere. *)
Definition empty_road (t : Q) : Traci :=
  mkTraci t (fun _ => 0%Z) (fun _ => []) (fun _ => 0) [].

(** The cycle as the specification words it, to compare the sequencer
    with: NS_GREEN, NS_YELLOW, EW_GREEN, EW_YELLOW, and NS_GREEN again. *)
Definition spec_next_phase (phase : string) : string :=
  if String.eqb phase "NS_green" then "NS_yellow"
  else if String.eqb phase "NS_yellow" then "EW_green"
  else if String.eqb phase "EW_green" then "EW_yellow"
  else if String.eqb phase "EW_yellow" then "NS_green"
  else phase.

(** The phases that follow [phase] in the specification's cycle, [n] of
    them. *)
Fixpoint spec_cycle_from (phase : string) (n : nat) : list string :=
  match n with
  | O => []
  | S n => spec_next_phase phase :: spec_cycle_from (spec_next_phase phase) n
  end.

Definition is_yellow (phase : string) : bool :=
  String.eqb phase "NS_yellow" || String.eqb phase "EW_yellow".

Definition defined_phase (phase : string) : Prop :=
  phase = "NS_green"%string \/ phase = "NS_yellow"%string
  \/ phase = "EW_green"%string \/ phase = "EW_yellow"%string.

(** The waiting times of all vehicles present on a list of lanes, and the
    halting vehicles counted on them: the quantities the specification
    words the sensor contract with. *)
Definition waiting_times (traci : Traci) (lanes : list string) : list Q :=
  map (vehicle_getWaitingTime traci)
      (flat_map (lane_getLastStepVehicleIDs traci) lanes).

Definition halting_total (traci : Traci) (lanes : list string) : Z :=
  fold_right Z.add 0%Z (map (lane_getLastStepHaltingNumber traci) lanes).

(** A simulator report with two vehicles on lane N2C_0, one of them
    halting, which have waited 4 and 6 seconds. *)
Definition two_vehicles (t : Q) : Traci :=
  mkTraci t
    (fun lane => if String.eqb lane "N2C_0" then 1%Z else 0%Z)
    (fun lane => if String.eqb lane "N2C_0" then ["a"; "b"]%string else [])
    (fun veh => if String.eqb veh "a" then 4 else 6)
    ["a"; "b"]%string.

(** The state after [compute_optimal_green_time]: only the controller's
    session and the two sample lists change. *)
Definition sampled (fc : FuzzyTrafficController) (queue_length : Z) (waiting_time : Q)
    (self : TrafficSimulation) : TrafficSimulation :=
  mkTrafficSimulation fc (current_phase self) (phase_start_time self)
    (mkStats (total_waiting_time (stats self)) (total_vehicles (stats self))
       (phase_changes (stats self))
       (avg_queue_lengths (stats self) ++ [queue_length])
       (avg_waiting_times (stats self) ++ [waiting_time]))
    (step self) (current_green_time self) (setPhase_calls self).

(** The state after [set_traffic_light_phase] with a known phase. *)
Definition switched (traci : Traci) (phase_name : string) (phase_index : nat)
    (self : TrafficSimulation) : TrafficSimulation :=
  mkTrafficSimulation (fuzzy_controller self) phase_name
    (simulation_getTime traci) (stats self) (step self)
    (current_green_time self)
    (setPhase_calls self ++ [(tl_id, phase_index)]).

(** The state the initial state is in after a tick at time 30. *)
Definition after_tick_30 : TrafficSimulation :=
  mkTrafficSimulation setup_fuzzy_system "NS_yellow" 30
    (mkStats 0 0 1 [] []) 1 30 [(tl_id, 1%nat)].

(** The labels of each variable in the order of their peaks along the
    universe, to state how the rule table is arranged. *)
Definition QueueTerm_rank (t : QueueTerm) : nat :=
  match t with q_low => 0 | q_medium => 1 | q_high => 2 end.

Definition WaitTerm_rank (t : WaitTerm) : nat :=
  match t with w_short => 0 | w_medium => 1 | w_long => 2 end.

Definition GreenTerm_rank (t : GreenTerm) : nat :=
  match t with g_short => 0 | g_medium => 1 | g_long => 2 end.

(** [np.mean] of a list of samples; [None] stands for the undefined mean
    of no sample at all. *)
Definition np_mean (samples : list Q) : option Q :=
  truediv (Qsum samples) (inject_Z (Z.of_nat (length samples))).

(** What [print_statistics] prints, line by line: the two counters always,
    each average only when its list of samples is not empty (the
    [if self.stats[...]] guards).  The formatting of the numbers is left
    out. *)
Record Statistics := mkStatistics {
  printed_phase_changes : Z;
  printed_vehicles : nat;
  printed_avg_queue : option Q;
  printed_avg_wait : option Q
}.

(** [print_statistics(self)]; the outer [None] stands for an exception
    raised while printing. *)
Definition print_statistics (self : TrafficSimulation) : option Statistics :=
  let st := stats self in
  avg_queue ←
    (match avg_queue_lengths st with
     | [] => Some None
     | _ :: _ => option_map Some (np_mean (map inject_Z (avg_queue_lengths st)))
     end);
  avg_wait ←
    (match avg_waiting_times st with
     | [] => Some None
     | _ :: _ => option_map Some (np_mean (avg_waiting_times st))
     end);
  Some (mkStatistics (phase_changes st) (total_vehicles st) avg_queue avg_wait).

(** The phases of a list that are green ones. *)
Definition green_entries (phases_entered : list string) : list string :=
  List.filter (fun phase => negb (is_yellow phase)) phases_entered.

(** The waiting time of all vehicles in the simulation, summed, as one
    report gives it. *)
Definition simulation_waiting (traci : Traci) : Q :=
  Qsum (map (vehicle_getWaitingTime traci) (vehicle_getIDList traci)).

(** The last command sent, if any, carries the index of the current
    phase. *)
Definition in_sync (self : TrafficSimulation) : Prop :=
  forall cmd,
    last (setPhase_calls self) = Some cmd ->
    fst cmd = tl_id /\ phases !! current_phase self = Some (snd cmd).

(** A state with two recorded samples of each kind. *)
Definition two_samples : TrafficSimulation :=
  mkTrafficSimulation setup_fuzzy_system "EW_green" 66
    (mkStats 0 0 2 [3; 5]%Z [10; 20]) 5 40 [].

(** ** Properties of the decision engine *)

Lemma Qlt_bool_iff (x y : Q) : Qlt_bool x y = true <-> x < y.
Proof.
  unfold Qlt_bool. rewrite negb_true_iff.
  destruct (Qle_bool y x) eqn:E.
  - apply Qle_bool_iff in E. split; [discriminate | intros H; exfalso; lra].
  - split; [intros _ | reflexivity].
    apply Qnot_le_lt. intros H. apply Qle_bool_iff in H. congruence.
Qed.

(** A triangular membership degree is never negative, whatever the
    breakpoints. *)
Lemma trimf_nonneg (abc : Q * Q * Q) (x : Q) : 0 <= trimf abc x.
Proof.
  destruct abc as [[a b] c]. unfold trimf.
  destruct (Qeq_bool x b); [lra |].
  destruct (Qlt_bool a x && Qlt_bool x b)%bool eqn:E1.
  - apply andb_true_iff in E1 as [H1 H2].
    apply Qlt_bool_iff in H1, H2.
    apply Qle_shift_div_l; lra.
  - destruct (Qlt_bool b x && Qlt_bool x c)%bool eqn:E2; [| lra].
    apply andb_true_iff in E2 as [H1 H2].
    apply Qlt_bool_iff in H1, H2.
    apply Qle_shift_div_l; lra.
Qed.

Lemma fold_Qmax_nonneg (l : list Q) : 0 <= fold_right Qmax 0 l.
Proof.
  induction l as [| x l IH]; simpl; [lra |].
  apply Qle_trans with (fold_right Qmax 0 l); [exact IH | apply Q.le_max_r].
Qed.

Lemma aggregated_strength_nonneg dq dw g : 0 <= aggregated_strength dq dw g.
Proof. apply fold_Qmax_nonneg. Qed.

Lemma output_membership_nonneg dq dw x : 0 <= output_membership dq dw x.
Proof.
  unfold output_membership.
  apply Qle_trans with
    (Qmin (aggregated_strength dq dw g_short) (trimf (green_time_abc g_short) x));
    [| apply Q.le_max_l].
  apply Q.min_glb; [apply aggregated_strength_nonneg | apply trimf_nonneg].
Qed.

Section Centroid.

Variables lo hi : Q.
Variable mu : Q -> Q.
Hypothesis mu_nonneg : forall x, 0 <= mu x.

Lemma Qsum_mu_nonneg (l : list Q) : 0 <= Qsum (map mu l).
Proof.
  induction l as [| x l IH]; simpl; [lra |].
  specialize (mu_nonneg x). lra.
Qed.

(** The weighted sum is squeezed between the bounds of the sample points
    times the total weight. *)
Lemma weighted_sum_bounds (l : list Q) :
  Forall (fun x => lo <= x /\ x <= hi) l ->
  lo * Qsum (map mu l) <= Qsum (map (fun x => x * mu x) l)
  /\ Qsum (map (fun x => x * mu x) l) <= hi * Qsum (map mu l).
Proof.
  induction 1 as [| x l [Hlo Hhi] _ [IH1 IH2]]; simpl; [lra |].
  pose proof (mu_nonneg x) as Hx.
  assert (lo * mu x <= x * mu x) by (apply Qmult_le_compat_r; assumption).
  assert (x * mu x <= hi * mu x) by (apply Qmult_le_compat_r; assumption).
  split; lra.
Qed.

Lemma centroid_bounds (l : list Q) :
  lo <= hi ->
  Forall (fun x => lo <= x /\ x <= hi) l ->
  lo <= centroid lo hi l mu /\ centroid lo hi l mu <= hi.
Proof.
  intros Hle Hl. unfold centroid.
  destruct (Qeq_bool (Qsum (map mu l)) 0) eqn:E.
  - split.
    + apply Qle_shift_div_l; lra.
    + apply Qle_shift_div_r; lra.
  - assert (Hpos : 0 < Qsum (map mu l)).
    { pose proof (Qsum_mu_nonneg l) as Hn.
      apply Qle_lt_or_eq in Hn as [Hn | Hn]; [exact Hn |].
      symmetry in Hn. apply Qeq_bool_iff in Hn. congruence. }
    destruct (weighted_sum_bounds l Hl) as [H1 H2].
    split.
    + apply Qle_shift_div_l; assumption.
    + apply Qle_shift_div_r; assumption.
Qed.

End Centroid.

Lemma green_time_universe_range :
  Forall (fun x => 10 <= x /\ x <= 90) green_time_universe.
Proof.
  apply Forall_forall. intros x Hx.
  assert (H : forallb (fun x => Qle_bool 10 x && Qle_bool x 90) green_time_universe = true)
    by (vm_compute; reflexivity).
  rewrite forallb_forall in H. apply list_elem_of_In in Hx.
  specialize (H x Hx). apply andb_true_iff in H as [H1 H2].
  split; apply Qle_bool_iff; assumption.
Qed.

(** The inference never leaves the universe of [green_time]. *)
Lemma infer_bounds dq dw : 10 <= infer dq dw /\ infer dq dw <= 90.
Proof.
  unfold infer. apply centroid_bounds.
  - apply output_membership_nonneg.
  - lra.
  - apply green_time_universe_range.
Qed.

(** What a call returns and what it leaves in the session: the result is a
    function of the two clamped arguments alone. *)
Lemma compute_green_time_eq (self : FuzzyTrafficController) (queue_len wait_time : Q) :
  exists self',
    compute_green_time self queue_len wait_time
    = Some (mamdani (Qmax 0 (Qmin 50 queue_len)) (Qmax 0 (Qmin 300 wait_time)), self').
Proof.
  unfold compute_green_time, compute, set_input. simpl.
  rewrite (lookup_insert_ne _ "waiting_time"%string "queue_length"%string) by done.
  rewrite !lookup_insert_eq. simpl.
  rewrite lookup_insert_eq. simpl.
  eexists. reflexivity.
Qed.

(** Clamping twice is clamping once, on the nose: the clamped value is one
    of the bound, the other bound, or the argument itself. *)
Lemma clamp_idempotent (hi x : Q) :
  0 < hi ->
  Qmax 0 (Qmin hi (Qmax 0 (Qmin hi x))) = Qmax 0 (Qmin hi x).
Proof.
  intros Hhi.
  assert (H0 : (hi ?= 0) = Gt) by (apply Qgt_alt; exact Hhi).
  assert (H1 : (0 ?= hi) = Lt) by (apply Qlt_alt; exact Hhi).
  assert (H2 : (0 ?= 0) = Eq) by reflexivity.
  assert (H3 : (hi ?= hi) = Eq) by (apply Qeq_alt; reflexivity).
  unfold Qmax, Qmin, GenericMinMax.gmax, GenericMinMax.gmin.
  destruct (hi ?= x) eqn:E1.
  - rewrite H1, H3, H1. reflexivity.
  - rewrite H1, H3, H1. reflexivity.
  - destruct (0 ?= x) eqn:E2.
    + rewrite H0, H2. reflexivity.
    + rewrite E1, E2. reflexivity.
    + rewrite H0, H2. reflexivity.
Qed.

Lemma fold_Qmax_all_zero (l : list Q) :
  Forall (fun v => v == 0) l -> fold_right Qmax 0 l == 0.
Proof.
  induction 1 as [| v l Hv _ IH]; simpl; [reflexivity |].
  destruct (Q.max_spec v (fold_right Qmax 0 l)) as [[_ E] | [_ E]];
    rewrite E; assumption.
Qed.

Lemma Qmin_zero_l (s m : Q) : s == 0 -> 0 <= m -> Qmin s m == 0.
Proof.
  intros Hs Hm. rewrite Q.min_l; [exact Hs | rewrite Hs; exact Hm].
Qed.

(** C1: for every input pair, in range or not, and whatever calls came
    before, [compute_green_time] returns a value, and that value lies in
    the interval [[10, 90]]. *)
Theorem compute_green_time_bounded
    (self : FuzzyTrafficController) (queue_len wait_time : Q) :
  exists green_time self',
    compute_green_time self queue_len wait_time = Some (green_time, self')
    /\ 10 <= green_time /\ green_time <= 90.
Proof.
  destruct (compute_green_time_eq self queue_len wait_time) as [self' E].
  eexists _, self'. split; [exact E |].
  apply infer_bounds.
Qed.

(** C4: a call with any input pair returns exactly what the call with the
    clamped pair returns; out-of-range values are saturated, never
    rejected. *)
Theorem compute_green_time_clamps
    (self : FuzzyTrafficController) (queue_len wait_time : Q) :
  exists green_time self',
    compute_green_time self queue_len wait_time = Some (green_time, self')
    /\ compute_green_time self (Qmax 0 (Qmin 50 queue_len)) (Qmax 0 (Qmin 300 wait_time))
       = Some (green_time, self').
Proof.
  unfold compute_green_time.
  rewrite !clamp_idempotent by reflexivity.
  destruct (compute_green_time_eq self queue_len wait_time) as [self' E].
  unfold compute_green_time in E.
  eexists _, self'. split; exact E.
Qed.

(** C8: the value returned for an input pair does not depend on the state
    of the controller it is called on: a fresh instance, a second instance
    or an instance that served any other calls before all return the same
    value. *)
Theorem compute_green_time_deterministic
    (self1 self2 : FuzzyTrafficController) (queue_len wait_time : Q) :
  exists green_time self1' self2',
    compute_green_time self1 queue_len wait_time = Some (green_time, self1')
    /\ compute_green_time self2 queue_len wait_time = Some (green_time, self2').
Proof.
  destruct (compute_green_time_eq self1 queue_len wait_time) as [s1 E1].
  destruct (compute_green_time_eq self2 queue_len wait_time) as [s2 E2].
  eexists _, s1, s2. split; [exact E1 | exact E2].
Qed.

(** *** Low queues stay below the midpoint, high queues above it *)

Lemma Qsum_app (l1 l2 : list Q) : Qsum (l1 ++ l2) == Qsum l1 + Qsum l2.
Proof.
  induction l1 as [| x l1 IH]; simpl; [ring | rewrite IH; ring].
Qed.

Lemma Qsum_rev (l : list Q) : Qsum (rev l) == Qsum l.
Proof.
  induction l as [| x l IH]; simpl; [reflexivity |].
  rewrite Qsum_app, IH. simpl. ring.
Qed.

Lemma Qsum_map_plus (f g : Q -> Q) (l : list Q) :
  Qsum (map (fun x => f x + g x) l) == Qsum (map f l) + Qsum (map g l).
Proof.
  induction l as [| x l IH]; simpl; [ring | rewrite IH; ring].
Qed.

Lemma Qsum_centered (c : Q) (mu : Q -> Q) (l : list Q) :
  Qsum (map (fun x => (x - c) * mu x) l)
  == Qsum (map (fun x => x * mu x) l) - c * Qsum (map mu l).
Proof.
  induction l as [| x l IH]; simpl; [ring | rewrite IH; ring].
Qed.

Lemma Qsum_nonpos (g : Q -> Q) (l : list Q) :
  Forall (fun x => g x <= 0) l -> Qsum (map g l) <= 0.
Proof.
  induction 1 as [| x l Hx _ IH]; simpl; lra.
Qed.

Lemma Qsum_nonneg (g : Q -> Q) (l : list Q) :
  Forall (fun x => 0 <= g x) l -> 0 <= Qsum (map g l).
Proof.
  induction 1 as [| x l Hx _ IH]; simpl; lra.
Qed.

(** The universe is the lower half, the midpoint, and the mirror image of
    the lower half. *)
Lemma green_time_universe_mirror :
  green_time_universe
  = arange 10 50 ++ [50] ++ rev (map (fun x => 100 - x) (arange 10 50)).
Proof. vm_compute. reflexivity. Qed.

Lemma Qsum_universe_paired (f : Q -> Q) :
  Qsum (map f green_time_universe)
  == Qsum (map (fun x => f x + f (100 - x)) (arange 10 50)) + f 50.
Proof.
  rewrite green_time_universe_mirror.
  rewrite !map_app, !Qsum_app, map_rev, Qsum_rev, map_map.
  rewrite Qsum_map_plus. simpl. ring.
Qed.

(** On the lower half of the universe: [short] is zero at the mirror
    point, [medium] is symmetric, [long] is zero. *)
Lemma lower_half_memberships :
  Forall (fun x =>
            10 <= x /\ x <= 50
            /\ trimf (green_time_abc g_short) (100 - x) == 0
            /\ trimf (green_time_abc g_medium) (100 - x)
               == trimf (green_time_abc g_medium) x
            /\ trimf (green_time_abc g_long) x == 0)
         (arange 10 50).
Proof.
  apply Forall_forall. intros x Hx.
  assert (H : forallb
                (fun x =>
                   Qle_bool 10 x && Qle_bool x 50
                   && Qeq_bool (trimf (green_time_abc g_short) (100 - x)) 0
                   && Qeq_bool (trimf (green_time_abc g_medium) (100 - x))
                        (trimf (green_time_abc g_medium) x)
                   && Qeq_bool (trimf (green_time_abc g_long) x) 0)
                (arange 10 50) = true)
    by (vm_compute; reflexivity).
  rewrite forallb_forall in H. apply list_elem_of_In in Hx.
  specialize (H x Hx).
  repeat (apply andb_true_iff in H as [H ?]).
  repeat split;
    solve [apply Qle_bool_iff; assumption | apply Qeq_bool_iff; assumption].
Qed.

Section Halves.

Variable dq : QueueTerm -> Q.
Variable dw : WaitTerm -> Q.

Let mu := output_membership dq dw.

Lemma medium_le_output (x y : Q) :
  trimf (green_time_abc g_medium) y <= trimf (green_time_abc g_medium) x ->
  Qmin (aggregated_strength dq dw g_medium) (trimf (green_time_abc g_medium) y)
  <= mu x.
Proof.
  intros H. unfold mu, output_membership.
  eapply Qle_trans; [apply Q.min_le_compat_l; exact H |].
  eapply Qle_trans; [| apply Q.le_max_r]. apply Q.le_max_l.
Qed.

(** Without any [long] strength the output set is left-heavy. *)
Lemma output_left_heavy :
  aggregated_strength dq dw g_long == 0 ->
  Forall (fun x => (x - 50) * mu x + (100 - x - 50) * mu (100 - x) <= 0)
         (arange 10 50).
Proof.
  intros Hlong.
  eapply Forall_impl; [exact lower_half_memberships |].
  intros x (H10 & H50 & Hs & Hm & _). simpl.
  assert (Hle : mu (100 - x) <= mu x).
  { unfold mu at 1, output_membership.
    repeat apply Q.max_lub.
    - apply Qle_trans with 0; [| apply output_membership_nonneg].
      rewrite <- Hs. apply Q.le_min_r.
    - apply medium_le_output. rewrite Hm. apply Qle_refl.
    - apply Qle_trans with 0; [| apply output_membership_nonneg].
      rewrite <- Hlong. apply Q.le_min_l. }
  nra.
Qed.

(** Without any [short] strength the output set is right-heavy. *)
Lemma output_right_heavy :
  aggregated_strength dq dw g_short == 0 ->
  Forall (fun x => 0 <= (x - 50) * mu x + (100 - x - 50) * mu (100 - x))
         (arange 10 50).
Proof.
  intros Hshort.
  eapply Forall_impl; [exact lower_half_memberships |].
  intros x (H10 & H50 & _ & Hm & Hl). simpl.
  assert (Hle : mu x <= mu (100 - x)).
  { unfold mu at 1, output_membership.
    repeat apply Q.max_lub.
    - apply Qle_trans with 0; [| apply output_membership_nonneg].
      rewrite <- Hshort. apply Q.le_min_l.
    - apply medium_le_output. rewrite Hm. apply Qle_refl.
    - apply Qle_trans with 0; [| apply output_membership_nonneg].
      rewrite <- Hl. apply Q.le_min_r. }
  nra.
Qed.

Lemma centered_moment_paired :
  Qsum (map (fun x => x * mu x) green_time_universe)
  - 50 * Qsum (map mu green_time_universe)
  == Qsum (map (fun x => (x - 50) * mu x + (100 - x - 50) * mu (100 - x))
             (arange 10 50)).
Proof.
  rewrite <- Qsum_centered.
  rewrite (Qsum_universe_paired (fun x => (x - 50) * mu x)).
  ring.
Qed.

Lemma total_positive :
  Qeq_bool (Qsum (map mu green_time_universe)) 0 = false ->
  0 < Qsum (map mu green_time_universe).
Proof.
  intros E.
  pose proof (Qsum_mu_nonneg mu (output_membership_nonneg dq dw)
                green_time_universe) as Hn.
  apply Qle_lt_or_eq in Hn as [Hn | Hn]; [exact Hn |].
  symmetry in Hn. apply Qeq_bool_iff in Hn. congruence.
Qed.

Lemma infer_le_midpoint :
  aggregated_strength dq dw g_long == 0 -> infer dq dw <= 50.
Proof.
  intros Hlong. unfold infer, centroid. fold mu.
  destruct (Qeq_bool (Qsum (map mu green_time_universe)) 0) eqn:E.
  - apply Qle_shift_div_r; lra.
  - apply Qle_shift_div_r; [apply total_positive; exact E |].
    pose proof (Qsum_nonpos _ _ (output_left_heavy Hlong)) as H.
    rewrite <- centered_moment_paired in H. lra.
Qed.

Lemma infer_ge_midpoint :
  aggregated_strength dq dw g_short == 0 -> 50 <= infer dq dw.
Proof.
  intros Hshort. unfold infer, centroid. fold mu.
  destruct (Qeq_bool (Qsum (map mu green_time_universe)) 0) eqn:E.
  - apply Qle_shift_div_l; lra.
  - apply Qle_shift_div_l; [apply total_positive; exact E |].
    pose proof (Qsum_nonneg _ _ (output_right_heavy Hshort)) as H.
    rewrite <- centered_moment_paired in H. lra.
Qed.

End Halves.

Lemma trimf_zero_left (a b c x : Q) : x <= a -> a < b -> trimf (a, b, c) x == 0.
Proof.
  intros Hx Hab. unfold trimf.
  destruct (Qeq_bool x b) eqn:E0.
  { apply Qeq_bool_iff in E0. lra. }
  destruct (Qlt_bool a x) eqn:E1.
  { apply Qlt_bool_iff in E1. lra. }
  destruct (Qlt_bool b x) eqn:E2.
  { apply Qlt_bool_iff in E2. lra. }
  reflexivity.
Qed.

Lemma trimf_zero_right (a b c x : Q) : c <= x -> b < c -> trimf (a, b, c) x == 0.
Proof.
  intros Hx Hbc. unfold trimf.
  destruct (Qeq_bool x b) eqn:E0.
  { apply Qeq_bool_iff in E0. lra. }
  destruct (Qlt_bool x b) eqn:E1.
  { apply Qlt_bool_iff in E1. lra. }
  destruct (Qlt_bool x c) eqn:E2.
  { apply Qlt_bool_iff in E2. lra. }
  rewrite !andb_false_r. reflexivity.
Qed.

Lemma clamp_range (hi x : Q) :
  0 <= hi -> 0 <= Qmax 0 (Qmin hi x) /\ Qmax 0 (Qmin hi x) <= hi.
Proof.
  intros Hhi. split; [apply Q.le_max_l |].
  apply Q.max_lub; [exact Hhi | apply Q.le_min_l].
Qed.

Lemma clamp_le (hi x b : Q) : 0 <= b -> x <= b -> Qmax 0 (Qmin hi x) <= b.
Proof.
  intros Hb Hx. apply Q.max_lub; [exact Hb |].
  apply Qle_trans with x; [apply Q.le_min_r | exact Hx].
Qed.

Lemma clamp_ge (hi x b : Q) : b <= hi -> b <= x -> b <= Qmax 0 (Qmin hi x).
Proof.
  intros Hb Hx. apply Qle_trans with (Qmin hi x); [| apply Q.le_max_r].
  apply Q.min_glb; assumption.
Qed.

(** An output label whose rules all have firing strength zero has
    aggregated strength zero. *)
Lemma aggregated_strength_zero dq dw (g : GreenTerm) :
  (forall r, In r rules -> rule_green r = g -> firing_strength dq dw r == 0) ->
  aggregated_strength dq dw g == 0.
Proof.
  intros H. unfold aggregated_strength. apply fold_Qmax_all_zero.
  apply Forall_forall. intros v Hv. apply list_elem_of_In in Hv.
  apply in_map_iff in Hv as (r & <- & Hr).
  apply filter_In in Hr as [Hr Hg].
  apply H; [exact Hr |].
  destruct (rule_green r), g; solve [reflexivity | discriminate Hg].
Qed.

(** In the low region of the queue (at most 10 vehicles, where only [low]
    has a positive degree) no rule concluding [long] fires. *)
Lemma low_queue_no_long (queue_len wait_time : Q) :
  queue_len <= 10 ->
  aggregated_strength
    (fun t => trimf (queue_length_abc t) queue_len)
    (fun t => trimf (waiting_time_abc t) wait_time) g_long == 0.
Proof.
  intros Hq. apply aggregated_strength_zero. intros r Hr Hg.
  unfold rules in Hr. cbn [In] in Hr.
  repeat (destruct Hr as [<- | Hr]; [try discriminate Hg |]); [| | | destruct Hr];
    unfold firing_strength; cbn [rule_queue rule_wait queue_length_abc];
    (apply Qmin_zero_l; [apply trimf_zero_left; lra | apply trimf_nonneg]).
Qed.

(** In the high region of the queue (at least 40 vehicles, where only
    [high] has a positive degree) no rule concluding [short] fires. *)
Lemma high_queue_no_short (queue_len wait_time : Q) :
  40 <= queue_len ->
  aggregated_strength
    (fun t => trimf (queue_length_abc t) queue_len)
    (fun t => trimf (waiting_time_abc t) wait_time) g_short == 0.
Proof.
  intros Hq. apply aggregated_strength_zero. intros r Hr Hg.
  unfold rules in Hr. cbn [In] in Hr.
  repeat (destruct Hr as [<- | Hr]; [try discriminate Hg |]); [| | destruct Hr];
    unfold firing_strength; cbn [rule_queue rule_wait queue_length_abc];
    (apply Qmin_zero_l; [apply trimf_zero_right; lra | apply trimf_nonneg]).
Qed.

(** C7: a queue in the low region (at most 10) never gets a longer green
    than a queue in the high region (at least 40), whether the waiting time
    is held fixed or not: the first result is at most 50 and the second at
    least 50.  The anchors (5, 30) and (45, 250) are an instance. *)
Theorem low_queue_green_le_high_queue
    (self1 self2 : FuzzyTrafficController) (queue_lo queue_hi wait_lo wait_hi : Q) :
  queue_lo <= 10 ->
  40 <= queue_hi ->
  exists green_lo green_hi self1' self2',
    compute_green_time self1 queue_lo wait_lo = Some (green_lo, self1')
    /\ compute_green_time self2 queue_hi wait_hi = Some (green_hi, self2')
    /\ green_lo <= 50 /\ 50 <= green_hi /\ green_lo <= green_hi.
Proof.
  intros Hlo Hhi.
  destruct (compute_green_time_eq self1 queue_lo wait_lo) as [s1 E1].
  destruct (compute_green_time_eq self2 queue_hi wait_hi) as [s2 E2].
  eexists _, _, s1, s2. split; [exact E1 |]. split; [exact E2 |].
  assert (H1 : mamdani (Qmax 0 (Qmin 50 queue_lo)) (Qmax 0 (Qmin 300 wait_lo)) <= 50).
  { apply infer_le_midpoint, low_queue_no_long, clamp_le; lra. }
  assert (H2 : 50 <= mamdani (Qmax 0 (Qmin 50 queue_hi)) (Qmax 0 (Qmin 300 wait_hi))).
  { apply infer_ge_midpoint, high_queue_no_short, clamp_ge; lra. }
  repeat split; lra.
Qed.

Lemma low_queue_green_le_high_queue_witness :
  exists green_lo green_hi self1' self2',
    compute_green_time setup_fuzzy_system 5 30 = Some (green_lo, self1')
    /\ compute_green_time setup_fuzzy_system 45 250 = Some (green_hi, self2')
    /\ green_lo <= 50 /\ 50 <= green_hi /\ green_lo <= green_hi.
Proof.
  apply (low_queue_green_le_high_queue setup_fuzzy_system setup_fuzzy_system
           5 45 30 250); lra.
Defined.

(** *** Rule coverage *)

Lemma trimf_positive (a b c x : Q) :
  (a < x /\ x < c) \/ x == b -> 0 < trimf (a, b, c) x.
Proof.
  intros H. unfold trimf.
  destruct (Qeq_bool x b) eqn:E0; [reflexivity |].
  assert (Hne : ~ x == b).
  { intros Hx. apply Qeq_bool_iff in Hx. congruence. }
  destruct H as [[Ha Hc] | Hb]; [| contradiction].
  destruct (Qlt_bool a x && Qlt_bool x b)%bool eqn:E1.
  - apply andb_true_iff in E1 as [H1 H2]. apply Qlt_bool_iff in H1, H2.
    apply Qlt_shift_div_l; lra.
  - destruct (Qlt_bool b x && Qlt_bool x c)%bool eqn:E2.
    + apply andb_true_iff in E2 as [H1 H2]. apply Qlt_bool_iff in H1, H2.
      apply Qlt_shift_div_l; lra.
    + exfalso.
      apply (proj2 (Qlt_bool_iff a x)) in Ha.
      apply (proj2 (Qlt_bool_iff x c)) in Hc.
      rewrite Ha in E1. rewrite Hc, andb_true_r in E2. cbn in E1.
      destruct (Qlt_bool x b) eqn:E3; [discriminate |].
      destruct (Qlt_bool b x) eqn:E4; [discriminate |].
      apply Hne. apply Qle_antisym.
      * apply Qnot_lt_le. intros Hlt. apply Qlt_bool_iff in Hlt. congruence.
      * apply Qnot_lt_le. intros Hlt. apply Qlt_bool_iff in Hlt. congruence.
Qed.

Lemma queue_length_covered (x : Q) :
  0 <= x -> x <= 50 -> exists t, 0 < trimf (queue_length_abc t) x.
Proof.
  intros H0 H50.
  destruct (Qlt_le_dec x 15) as [H15 | H15].
  - exists q_low. apply trimf_positive.
    destruct (Qlt_le_dec 0 x); [left; split; assumption | right; lra].
  - destruct (Qlt_le_dec x 40) as [H40 | H40].
    + exists q_medium. apply trimf_positive. left. split; lra.
    + exists q_high. apply trimf_positive.
      destruct (Qlt_le_dec x 50); [left; split; lra | right; lra].
Qed.

Lemma waiting_time_covered (x : Q) :
  0 <= x -> x <= 300 -> exists t, 0 < trimf (waiting_time_abc t) x.
Proof.
  intros H0 H300.
  destruct (Qlt_le_dec x 100) as [H1 | H1].
  - exists w_short. apply trimf_positive.
    destruct (Qlt_le_dec 0 x); [left; split; assumption | right; lra].
  - destruct (Qlt_le_dec x 240) as [H2 | H2].
    + exists w_medium. apply trimf_positive. left. split; lra.
    + exists w_long. apply trimf_positive.
      destruct (Qlt_le_dec x 300); [left; split; lra | right; lra].
Qed.

(** X3: for every input pair at least one of the nine rules fires with a
    positive strength once the inputs are clamped: the all-zero case cannot
    arise inside [compute_green_time]. *)
Lemma rule_coverage (queue_len wait_time : Q) :
  exists r,
    In r rules
    /\ 0 < firing_strength
             (fun t => trimf (queue_length_abc t) (Qmax 0 (Qmin 50 queue_len)))
             (fun t => trimf (waiting_time_abc t) (Qmax 0 (Qmin 300 wait_time))) r.
Proof.
  destruct (clamp_range 50 queue_len) as [Hq0 Hq1]; [lra |].
  destruct (clamp_range 300 wait_time) as [Hw0 Hw1]; [lra |].
  destruct (queue_length_covered _ Hq0 Hq1) as [tq Htq].
  destruct (waiting_time_covered _ Hw0 Hw1) as [tw Htw].
  assert (Hr : exists g, In (mkRule tq tw g) rules).
  { destruct tq, tw; eexists; cbn; eauto 10. }
  destruct Hr as [g Hr].
  exists (mkRule tq tw g). split; [exact Hr |].
  unfold firing_strength. cbn [rule_queue rule_wait].
  apply Q.min_glb_lt; assumption.
Qed.

(** *** Sample scenarios of the specification *)

Example mamdani_25_150 : mamdani 25 150 == 50.
Proof. vm_compute. reflexivity. Qed.

Example sample_scenarios :
  mamdani 5 30 < 20 /\ 75 < mamdani 45 250.
Proof. split; vm_compute; reflexivity. Qed.

(** ** Properties of the sensor aggregation *)

Lemma truediv_positive (a : Q) (n : Z) :
  (0 < n)%Z -> truediv a (inject_Z n) = Some (a / inject_Z n).
Proof.
  intros Hn. unfold truediv.
  destruct (Qeq_bool (inject_Z n) 0) eqn:E; [| reflexivity].
  apply Qeq_bool_iff in E. unfold Qeq in E. simpl in E. lia.
Qed.

Section LaneMetrics.

Variable traci : Traci.

Lemma vehicle_loop (vehicles : list string) (total_waiting : Q) (vehicle_count : Z) :
  exists tw,
    fold_left
      (fun '(total_waiting, vehicle_count) veh =>
         let waiting_time := vehicle_getWaitingTime traci veh in
         (total_waiting + waiting_time, (vehicle_count + 1)%Z))
      vehicles (total_waiting, vehicle_count)
    = (tw, (vehicle_count + Z.of_nat (length vehicles))%Z)
    /\ tw == total_waiting + Qsum (map (vehicle_getWaitingTime traci) vehicles).
Proof.
  match goal with |- context [fold_left ?f _ _] => set (count := f) end.
  revert total_waiting vehicle_count.
  induction vehicles as [| veh vehicles IH]; intros tw0 vc0.
  - exists tw0. cbn [fold_left length map Qsum fold_right].
    split; [f_equal; lia | ring].
  - cbn [fold_left length map].
    change (count (tw0, vc0) veh)
      with (tw0 + vehicle_getWaitingTime traci veh, (vc0 + 1)%Z).
    destruct (IH (tw0 + vehicle_getWaitingTime traci veh) (vc0 + 1)%Z)
      as (tw & E & Htw).
    exists tw. rewrite E.
    split; [f_equal; lia |].
    rewrite Htw. unfold Qsum. cbn [fold_right]. ring.
Qed.

Lemma lane_loop (lanes : list string) (total_queue : Z) (total_waiting : Q)
    (vehicle_count : Z) :
  exists tw,
    fold_left
      (fun '(total_queue, total_waiting, vehicle_count) lane =>
         let halting := lane_getLastStepHaltingNumber traci lane in
         let total_queue := (total_queue + halting)%Z in
         let vehicles := lane_getLastStepVehicleIDs traci lane in
         let '(total_waiting, vehicle_count) :=
           fold_left
             (fun '(total_waiting, vehicle_count) veh =>
                let waiting_time := vehicle_getWaitingTime traci veh in
                (total_waiting + waiting_time, (vehicle_count + 1)%Z))
             vehicles (total_waiting, vehicle_count) in
         (total_queue, total_waiting, vehicle_count))
      lanes (total_queue, total_waiting, vehicle_count)
    = ((total_queue + halting_total traci lanes)%Z, tw,
       (vehicle_count + Z.of_nat (length (waiting_times traci lanes)))%Z)
    /\ tw == total_waiting + Qsum (waiting_times traci lanes).
Proof.
  match goal with |- context [fold_left ?f lanes _] => set (visit := f) end.
  revert total_queue total_waiting vehicle_count.
  induction lanes as [| lane lanes IH]; intros tq0 tw0 vc0.
  - exists tw0. cbn. split; [f_equal; [f_equal |]; lia | ring].
  - cbn [fold_left].
    destruct (vehicle_loop (lane_getLastStepVehicleIDs traci lane) tw0 vc0)
      as (tw1 & E1 & Htw1).
    assert (Ev : visit (tq0, tw0, vc0) lane
                 = ((tq0 + lane_getLastStepHaltingNumber traci lane)%Z, tw1,
                    (vc0 + Z.of_nat (length (lane_getLastStepVehicleIDs traci lane)))%Z)).
    { subst visit. cbv beta iota zeta in E1 |- *. rewrite E1. reflexivity. }
    rewrite Ev.
    destruct (IH (tq0 + lane_getLastStepHaltingNumber traci lane)%Z tw1
                (vc0 + Z.of_nat (length (lane_getLastStepVehicleIDs traci lane)))%Z)
      as (tw & E & Htw).
    exists tw. rewrite E. unfold waiting_times, halting_total in *.
    cbn [flat_map map fold_right].
    rewrite map_app, length_app, !length_map in *.
    split.
    + f_equal; [f_equal |]; lia.
    + rewrite Htw, Htw1, Qsum_app. ring.
Qed.

(** The result of [get_lane_metrics] in closed form. *)
Lemma get_lane_metrics_eq (lanes : list string) :
  exists avg_waiting,
    get_lane_metrics traci lanes = Some (halting_total traci lanes, avg_waiting)
    /\ (waiting_times traci lanes = [] -> avg_waiting = 0)
    /\ (waiting_times traci lanes <> [] ->
        avg_waiting
        == Qsum (waiting_times traci lanes)
           / inject_Z (Z.of_nat (length (waiting_times traci lanes)))).
Proof.
  unfold get_lane_metrics.
  destruct (lane_loop lanes 0%Z 0 0%Z) as (tw & E & Htw).
  cbv beta iota zeta in E |- *. rewrite E, !Z.add_0_l.
  destruct (waiting_times traci lanes) as [| w ws] eqn:Ew.
  - exists 0. cbn. split; [reflexivity |]. split; [reflexivity | congruence].
  - set (n := Z.of_nat (length (w :: ws))) in *.
    assert (Hn : (0 < n)%Z) by (subst n; cbn [length]; lia).
    assert (Hb : (0 <? n)%Z = true) by (apply Z.ltb_lt; exact Hn).
    rewrite Hb, (truediv_positive _ _ Hn).
    eexists. split; [reflexivity |]. split; [discriminate |].
    intros _. rewrite Htw, Qplus_0_l. reflexivity.
Qed.

End LaneMetrics.

(** C9: [get_lane_metrics] always returns: the first component is the
    number of halting vehicles over the lanes; the average is the total
    waiting time over the number of vehicles present when there is at least
    one, and 0 when there is none, so with no vehicle on a direction (and a
    sensor whose halting counts do not exceed the vehicles it reports) the
    result is (0, 0). *)
Theorem get_lane_metrics_average (traci : Traci) (lanes : list string) :
  exists avg_waiting,
    get_lane_metrics traci lanes = Some (halting_total traci lanes, avg_waiting)
    /\ (waiting_times traci lanes <> [] ->
        avg_waiting
        == Qsum (waiting_times traci lanes)
           / inject_Z (Z.of_nat (length (waiting_times traci lanes))))
    /\ (waiting_times traci lanes = [] -> avg_waiting = 0)
    /\ ((forall lane, In lane lanes ->
           lane_getLastStepVehicleIDs traci lane = []
           /\ (0 <= lane_getLastStepHaltingNumber traci lane
               <= Z.of_nat (length (lane_getLastStepVehicleIDs traci lane)))%Z) ->
        get_lane_metrics traci lanes = Some (0%Z, 0)).
Proof.
  destruct (get_lane_metrics_eq traci lanes) as (avg & E & Hnil & Hcons).
  exists avg. split; [exact E |]. split; [exact Hcons |]. split; [exact Hnil |].
  intros Hempty. rewrite E.
  assert (Hw : waiting_times traci lanes = []
               /\ halting_total traci lanes = 0%Z).
  { clear E Hnil Hcons. unfold waiting_times, halting_total.
    induction lanes as [| lane lanes IH]; [split; reflexivity |].
    destruct (Hempty lane (or_introl eq_refl)) as [Hv Hh].
    destruct IH as [IH1 IH2].
    { intros l Hl. apply Hempty. right. exact Hl. }
    cbn [flat_map map fold_right]. rewrite Hv in *. cbn [length] in Hh.
    rewrite app_nil_l. split; [exact IH1 | rewrite IH2; lia]. }
  destruct Hw as [Hw Hh]. rewrite Hh, (Hnil Hw). reflexivity.
Qed.

Lemma get_lane_metrics_average_witness :
  get_lane_metrics (empty_road 0) ["N2C_0"; "N2C_1"; "S2C_0"; "S2C_1"]%string
  = Some (0%Z, 0)
  /\ exists avg_waiting,
       get_lane_metrics (two_vehicles 0) ["N2C_0"; "N2C_1"; "S2C_0"; "S2C_1"]%string
       = Some (1%Z, avg_waiting)
       /\ avg_waiting == 5.
Proof.
  split.
  - destruct (get_lane_metrics_average (empty_road 0)
                ["N2C_0"; "N2C_1"; "S2C_0"; "S2C_1"]%string)
      as (avg & _ & _ & _ & H).
    apply H. intros lane _. cbn. split; [reflexivity | lia].
  - destruct (get_lane_metrics_average (two_vehicles 0)
                ["N2C_0"; "N2C_1"; "S2C_0"; "S2C_1"]%string)
      as (avg & E & H & _).
    exists avg. split; [exact E |].
    rewrite H; [reflexivity | discriminate].
Defined.

(** ** Properties of the phase sequencer *)

Ltac eval_eqb :=
  repeat match goal with
         | |- context [String.eqb ?a ?b] =>
             let v := eval vm_compute in (String.eqb a b) in
             change (String.eqb a b) with v
         end;
  cbv iota.

Lemma phases_NS_green : phases !! "NS_green"%string = Some 0%nat.
Proof. reflexivity. Qed.

Lemma phases_NS_yellow : phases !! "NS_yellow"%string = Some 1%nat.
Proof. reflexivity. Qed.

Lemma phases_EW_green : phases !! "EW_green"%string = Some 2%nat.
Proof. reflexivity. Qed.

Lemma phases_EW_yellow : phases !! "EW_yellow"%string = Some 3%nat.
Proof. reflexivity. Qed.

Lemma lanes_NS :
  lanes !! "NS"%string = Some ["N2C_0"; "N2C_1"; "S2C_0"; "S2C_1"]%string.
Proof. reflexivity. Qed.

Lemma lanes_EW :
  lanes !! "EW"%string = Some ["E2C_0"; "E2C_1"; "W2C_0"; "W2C_1"]%string.
Proof. reflexivity. Qed.

Lemma compute_optimal_green_time_eq (traci : Traci) (self : TrafficSimulation)
    (direction : string) (ls : list string) :
  lanes !! direction = Some ls ->
  exists queue_length waiting_time green_time fc,
    get_lane_metrics traci ls = Some (queue_length, waiting_time)
    /\ compute_green_time (fuzzy_controller self) (inject_Z queue_length) waiting_time
       = Some (green_time, fc)
    /\ compute_optimal_green_time traci self direction
       = Some (green_time, sampled fc queue_length waiting_time self).
Proof.
  intros Hl. unfold compute_optimal_green_time. rewrite Hl. cbn [mbind option_bind].
  destruct (get_lane_metrics_eq traci ls) as (avg & E & _).
  destruct (compute_green_time_eq (fuzzy_controller self)
              (inject_Z (halting_total traci ls)) avg) as (fc & Eg).
  eexists _, _, _, fc. split; [exact E |]. split; [exact Eg |].
  rewrite E. cbn [mbind option_bind]. rewrite Eg. reflexivity.
Qed.

Lemma tick_NS_green (traci : Traci) (self : TrafficSimulation) :
  current_phase self = "NS_green"%string ->
  sequencer_tick traci self
  = if Qle_bool (current_green_time self)
         (simulation_getTime traci - phase_start_time self)
    then Some (count_phase_change (switched traci "NS_yellow" 1 self))
    else Some self.
Proof.
  intros H. unfold sequencer_tick. rewrite H. eval_eqb.
  unfold set_traffic_light_phase. rewrite phases_NS_yellow. reflexivity.
Qed.

Lemma tick_EW_green (traci : Traci) (self : TrafficSimulation) :
  current_phase self = "EW_green"%string ->
  sequencer_tick traci self
  = if Qle_bool (current_green_time self)
         (simulation_getTime traci - phase_start_time self)
    then Some (count_phase_change (switched traci "EW_yellow" 3 self))
    else Some self.
Proof.
  intros H. unfold sequencer_tick. rewrite H. eval_eqb.
  unfold set_traffic_light_phase. rewrite phases_EW_yellow. reflexivity.
Qed.

Lemma tick_NS_yellow (traci : Traci) (self : TrafficSimulation) :
  current_phase self = "NS_yellow"%string ->
  sequencer_tick traci self
  = if Qle_bool yellow_time (simulation_getTime traci - phase_start_time self)
    then '(g, self) ← compute_optimal_green_time traci self "EW";
         Some (switched traci "EW_green" 2 (set_current_green_time g self))
    else Some self.
Proof.
  intros H. unfold sequencer_tick. rewrite H. eval_eqb.
  unfold set_traffic_light_phase. rewrite phases_EW_green. reflexivity.
Qed.

Lemma tick_EW_yellow (traci : Traci) (self : TrafficSimulation) :
  current_phase self = "EW_yellow"%string ->
  sequencer_tick traci self
  = if Qle_bool yellow_time (simulation_getTime traci - phase_start_time self)
    then '(g, self) ← compute_optimal_green_time traci self "NS";
         Some (switched traci "NS_green" 0 (set_current_green_time g self))
    else Some self.
Proof.
  intros H. unfold sequencer_tick. rewrite H. eval_eqb.
  unfold set_traffic_light_phase. rewrite phases_NS_green. reflexivity.
Qed.

Lemma spec_next_phase_defined (phase : string) :
  defined_phase phase ->
  defined_phase (spec_next_phase phase)
  /\ String.eqb (spec_next_phase phase) phase = false.
Proof.
  unfold defined_phase.
  intros [-> | [-> | [-> | ->]]]; split; try reflexivity; cbn; tauto.
Qed.

(** One iteration never fails; it either keeps the phase and the counter,
    or moves to the next phase of the cycle, counting the change exactly
    when the phase entered is a yellow one. *)
Lemma loop_body_step (traci : Traci) (self : TrafficSimulation) :
  defined_phase (current_phase self) ->
  exists self',
    loop_body traci self = Some self'
    /\ ((current_phase self' = current_phase self
         /\ phase_changes (stats self') = phase_changes (stats self))
        \/ (current_phase self' = spec_next_phase (current_phase self)
            /\ phase_changes (stats self')
               = (phase_changes (stats self)
                  + (if is_yellow (current_phase self') then 1 else 0))%Z)).
Proof.
  unfold loop_body.
  intros [H | [H | [H | H]]].
  - rewrite (tick_NS_green _ _ H), H.
    destruct (Qle_bool _ _); eexists; (split; [reflexivity |]);
      [right | left]; cbn; [split; reflexivity | split; [exact H | reflexivity]].
  - rewrite (tick_NS_yellow _ _ H), H.
    destruct (Qle_bool _ _).
    + destruct (compute_optimal_green_time_eq traci self _ _ lanes_EW)
        as (ql & wt & g & fc & _ & _ & E).
      rewrite E. eexists. split; [reflexivity |]. right. cbn.
      split; [reflexivity | lia].
    + eexists. split; [reflexivity |]. left. cbn. split; [exact H | reflexivity].
  - rewrite (tick_EW_green _ _ H), H.
    destruct (Qle_bool _ _); eexists; (split; [reflexivity |]);
      [right | left]; cbn; [split; reflexivity | split; [exact H | reflexivity]].
  - rewrite (tick_EW_yellow _ _ H), H.
    destruct (Qle_bool _ _).
    + destruct (compute_optimal_green_time_eq traci self _ _ lanes_NS)
        as (ql & wt & g & fc & _ & _ & E).
      rewrite E. eexists. split; [reflexivity |]. right. cbn.
      split; [reflexivity | lia].
    + eexists. split; [reflexivity |]. left. cbn. split; [exact H | reflexivity].
Qed.

(** A whole run: it never fails, its transitions are the specification's
    cycle from the starting phase, and the counter grows by the number of
    yellow phases entered. *)
Lemma run_loop_follows_cycle (reports : list Traci) :
  forall self,
    defined_phase (current_phase self) ->
    exists self',
      run_loop reports self = Some self'
      /\ defined_phase (current_phase self')
      /\ transitions reports self
         = spec_cycle_from (current_phase self) (length (transitions reports self))
      /\ current_phase self'
         = Nat.iter (length (transitions reports self)) spec_next_phase
             (current_phase self)
      /\ phase_changes (stats self')
         = (phase_changes (stats self)
            + Z.of_nat (length (List.filter is_yellow (transitions reports self))))%Z.
Proof.
  induction reports as [| traci reports IH]; intros self Hdef.
  - exists self. cbn. repeat split; [exact Hdef | lia].
  - destruct (loop_body_step traci self Hdef) as (self1 & E & Hstep).
    cbn [run_loop transitions]. rewrite E.
    destruct Hstep as [[Hp Hc] | [Hp Hc]].
    + assert (Hdef1 : defined_phase (current_phase self1)) by (rewrite Hp; exact Hdef).
      destruct (IH self1 Hdef1) as (self' & Er & Hd & Ht & Hf & Hn).
      exists self'. rewrite Hp, String.eqb_refl.
      rewrite Hp in Ht, Hf. rewrite Hc in Hn.
      repeat split; assumption.
    + destruct (spec_next_phase_defined _ Hdef) as [Hdef1 Hneq].
      rewrite <- Hp in Hdef1, Hneq.
      destruct (IH self1 Hdef1) as (self' & Er & Hd & Ht & Hf & Hn).
      exists self'. rewrite Hneq.
      cbn [length spec_cycle_from List.filter].
      rewrite <- Hp. rewrite <- Ht.
      split; [exact Er |]. split; [exact Hd |]. split; [reflexivity |].
      split.
      * rewrite Hf. rewrite Nat.iter_succ_r, <- Hp. reflexivity.
      * rewrite Hn, Hc. destruct (is_yellow (current_phase self1));
          cbn [length]; lia.
Qed.

Lemma defined_phase_signals (self : TrafficSimulation) :
  defined_phase (current_phase self) ->
  exists ns ew,
    signals self = Some (ns, ew) /\ ~ (ns <> RED /\ ew <> RED).
Proof.
  unfold signals.
  intros [H | [H | [H | H]]]; rewrite H.
  - exists GREEN, RED. split; [reflexivity | tauto].
  - exists YELLOW, RED. split; [reflexivity | tauto].
  - exists RED, GREEN. split; [reflexivity | tauto].
  - exists RED, YELLOW. split; [reflexivity | tauto].
Qed.

Lemma init_defined : defined_phase (current_phase init).
Proof. left. reflexivity. Qed.

(** C2: however long the simulation runs and whatever the simulator
    reports, the run does not fail, the phase reached is one of the four
    defined phases, and the signals of that phase never show both
    directions non-red. *)
Theorem phase_safety (duration : nat) (reports : list Traci) :
  exists self,
    run_simulation duration reports = Some self
    /\ defined_phase (current_phase self)
    /\ exists ns ew,
         signals self = Some (ns, ew) /\ ~ (ns <> RED /\ ew <> RED).
Proof.
  unfold run_simulation.
  destruct (run_loop_follows_cycle (take duration reports) init init_defined)
    as (self & E & Hdef & _).
  exists self. split; [exact E |]. split; [exact Hdef |].
  apply defined_phase_signals. exact Hdef.
Qed.

(** C6: from NS_green the transitions of any run are the cycle NS_yellow,
    EW_green, EW_yellow, NS_green, and so on, none skipped; a run with
    exactly four transitions ends in NS_green again. *)
Theorem phase_cycle_closure (reports : list Traci) (self : TrafficSimulation) :
  current_phase self = "NS_green"%string ->
  transitions reports self
  = spec_cycle_from "NS_green" (length (transitions reports self))
  /\ (length (transitions reports self) = 4%nat ->
      transitions reports self
      = ["NS_yellow"; "EW_green"; "EW_yellow"; "NS_green"]%string
      /\ exists self',
           run_loop reports self = Some self'
           /\ current_phase self' = "NS_green"%string).
Proof.
  intros H.
  assert (Hdef : defined_phase (current_phase self)) by (left; exact H).
  destruct (run_loop_follows_cycle reports self Hdef)
    as (self' & E & _ & Ht & Hf & _).
  rewrite H in Ht, Hf.
  split; [exact Ht |].
  intros Hlen. rewrite Hlen in Ht, Hf.
  split; [exact Ht |].
  exists self'. split; [exact E | exact Hf].
Qed.

Lemma phase_cycle_closure_witness :
  transitions [empty_road 30; empty_road 33; empty_road 60; empty_road 63] init
  = ["NS_yellow"; "EW_green"; "EW_yellow"; "NS_green"]%string
  /\ exists self',
       run_loop [empty_road 30; empty_road 33; empty_road 60; empty_road 63] init
       = Some self'
       /\ current_phase self' = "NS_green"%string.
Proof.
  apply (phase_cycle_closure
           [empty_road 30; empty_road 33; empty_road 60; empty_road 63] init).
  - reflexivity.
  - vm_compute. reflexivity.
Defined.

(** C10: the phase-change counter grows by one for each yellow phase
    entered (a green-to-yellow transition) and by nothing else, so four
    consecutive transitions raise it by exactly 2. *)
Theorem phase_changes_count_yellow_entries
    (reports : list Traci) (self : TrafficSimulation) :
  defined_phase (current_phase self) ->
  exists self',
    run_loop reports self = Some self'
    /\ phase_changes (stats self')
       = (phase_changes (stats self)
          + Z.of_nat (length (List.filter is_yellow (transitions reports self))))%Z
    /\ (length (transitions reports self) = 4%nat ->
        phase_changes (stats self') = (phase_changes (stats self) + 2)%Z).
Proof.
  intros Hdef.
  destruct (run_loop_follows_cycle reports self Hdef)
    as (self' & E & _ & Ht & _ & Hn).
  exists self'. split; [exact E |]. split; [exact Hn |].
  intros Hlen. rewrite Hn, Ht, Hlen.
  destruct Hdef as [H | [H | [H | H]]]; rewrite H; reflexivity.
Qed.

Lemma phase_changes_count_yellow_entries_witness :
  exists self',
    run_loop [empty_road 30; empty_road 33; empty_road 60; empty_road 63] init
    = Some self'
    /\ phase_changes (stats self') = 2%Z.
Proof.
  destruct (phase_changes_count_yellow_entries
              [empty_road 30; empty_road 33; empty_road 60; empty_road 63] init
              init_defined)
    as (self' & E & _ & H).
  exists self'. split; [exact E |].
  apply H. vm_compute. reflexivity.
Defined.

Lemma yellow_expiry (traci : Traci) (self : TrafficSimulation)
    (direction phase_name : string) (phase_index : nat) (ls : list string) :
  lanes !! direction = Some ls ->
  yellow_time <= simulation_getTime traci - phase_start_time self ->
  sequencer_tick traci self
  = (if Qle_bool yellow_time (simulation_getTime traci - phase_start_time self)
     then '(g, self) ← compute_optimal_green_time traci self direction;
          Some (switched traci phase_name phase_index (set_current_green_time g self))
     else Some self) ->
  exists queue_length waiting_time green_time fc self',
    get_lane_metrics traci ls = Some (queue_length, waiting_time)
    /\ compute_green_time (fuzzy_controller self) (inject_Z queue_length) waiting_time
       = Some (green_time, fc)
    /\ sequencer_tick traci self = Some self'
    /\ current_phase self' = phase_name
    /\ current_green_time self' = green_time
    /\ phase_start_time self' = simulation_getTime traci
    /\ phase_changes (stats self') = phase_changes (stats self).
Proof.
  intros Hl Hel Ht.
  apply Qle_bool_iff in Hel. rewrite Hel in Ht.
  destruct (compute_optimal_green_time_eq traci self _ _ Hl)
    as (ql & wt & g & fc & E1 & E2 & E3).
  rewrite E3 in Ht. cbn [mbind option_bind] in Ht.
  eexists ql, wt, g, fc, _. split; [exact E1 |]. split; [exact E2 |].
  split; [exact Ht |]. cbn. repeat split.
Qed.

Lemma yellow_not_expired (traci : Traci) (self : TrafficSimulation) :
  current_phase self = "NS_yellow"%string \/ current_phase self = "EW_yellow"%string ->
  simulation_getTime traci - phase_start_time self < yellow_time ->
  sequencer_tick traci self = Some self.
Proof.
  intros H Hel.
  assert (E : Qle_bool yellow_time (simulation_getTime traci - phase_start_time self)
              = false).
  { destruct (Qle_bool _ _) eqn:E; [| reflexivity].
    apply Qle_bool_iff in E. lra. }
  destruct H as [H | H].
  - rewrite (tick_NS_yellow _ _ H), E. reflexivity.
  - rewrite (tick_EW_yellow _ _ H), E. reflexivity.
Qed.

(** C5: a yellow phase ends at the first tick at which 3 seconds have
    elapsed, whatever the green duration is: leaving NS_yellow the engine is
    asked with the measurements of the EW lanes, leaving EW_yellow with
    those of the NS lanes; the value returned becomes the green duration,
    the phase becomes that direction's green and the phase start time is
    the current time.  Before 3 seconds have elapsed nothing changes.  From
    the initial state (NS_green since 0, green duration 30) a tick at 30
    enters NS_yellow and a tick at 33 enters EW_green with the duration
    computed from the EW measurements of that tick. *)
Theorem yellow_expiry_starts_next_green :
  (forall traci self,
      current_phase self = "NS_yellow"%string ->
      3 <= simulation_getTime traci - phase_start_time self ->
      exists queue_length waiting_time green_time fc self',
        get_lane_metrics traci ["E2C_0"; "E2C_1"; "W2C_0"; "W2C_1"]%string
        = Some (queue_length, waiting_time)
        /\ compute_green_time (fuzzy_controller self) (inject_Z queue_length)
             waiting_time = Some (green_time, fc)
        /\ sequencer_tick traci self = Some self'
        /\ current_phase self' = "EW_green"%string
        /\ current_green_time self' = green_time
        /\ phase_start_time self' = simulation_getTime traci
        /\ phase_changes (stats self') = phase_changes (stats self))
  /\ (forall traci self,
         current_phase self = "EW_yellow"%string ->
         3 <= simulation_getTime traci - phase_start_time self ->
         exists queue_length waiting_time green_time fc self',
           get_lane_metrics traci ["N2C_0"; "N2C_1"; "S2C_0"; "S2C_1"]%string
           = Some (queue_length, waiting_time)
           /\ compute_green_time (fuzzy_controller self) (inject_Z queue_length)
                waiting_time = Some (green_time, fc)
           /\ sequencer_tick traci self = Some self'
           /\ current_phase self' = "NS_green"%string
           /\ current_green_time self' = green_time
           /\ phase_start_time self' = simulation_getTime traci
           /\ phase_changes (stats self') = phase_changes (stats self))
  /\ (forall traci self,
         current_phase self = "NS_yellow"%string
         \/ current_phase self = "EW_yellow"%string ->
         simulation_getTime traci - phase_start_time self < 3 ->
         sequencer_tick traci self = Some self)
  /\ (forall halting30 vehicles30 waiting30 ids30 halting33 vehicles33 waiting33 ids33,
         let tick30 := mkTraci 30 halting30 vehicles30 waiting30 ids30 in
         let tick33 := mkTraci 33 halting33 vehicles33 waiting33 ids33 in
         exists self30 self33 queue_length waiting_time green_time fc,
           loop_body tick30 init = Some self30
           /\ current_phase self30 = "NS_yellow"%string
           /\ loop_body tick33 self30 = Some self33
           /\ current_phase self33 = "EW_green"%string
           /\ get_lane_metrics tick33 ["E2C_0"; "E2C_1"; "W2C_0"; "W2C_1"]%string
              = Some (queue_length, waiting_time)
           /\ compute_green_time setup_fuzzy_system (inject_Z queue_length)
                waiting_time = Some (green_time, fc)
           /\ current_green_time self33 = green_time).
Proof.
  split; [| split; [| split]].
  - intros traci self H Hel.
    apply (yellow_expiry traci self "EW" "EW_green" 2 _ lanes_EW Hel).
    apply tick_NS_yellow. exact H.
  - intros traci self H Hel.
    apply (yellow_expiry traci self "NS" "NS_green" 0 _ lanes_NS Hel).
    apply tick_EW_yellow. exact H.
  - intros traci self H Hel. apply yellow_not_expired; assumption.
  - intros h30 v30 w30 i30 h33 v33 w33 i33 tick30 tick33.
    set (self30 := record_vehicles tick30
                     (count_phase_change (switched tick30 "NS_yellow" 1 init))).
    assert (E30 : loop_body tick30 init = Some self30).
    { unfold loop_body. rewrite tick_NS_green by reflexivity. reflexivity. }
    assert (Hel : Qle_bool yellow_time
                    (simulation_getTime tick33 - phase_start_time self30) = true)
      by reflexivity.
    destruct (compute_optimal_green_time_eq tick33 self30 _ _ lanes_EW)
      as (ql & wt & g & fc & E1 & E2 & E3).
    exists self30, (record_vehicles tick33
                      (switched tick33 "EW_green" 2
                         (set_current_green_time g (sampled fc ql wt self30)))),
      ql, wt, g, fc.
    split; [exact E30 |]. split; [reflexivity |].
    split.
    { unfold loop_body. rewrite tick_NS_yellow by reflexivity.
      rewrite Hel, E3. reflexivity. }
    split; [reflexivity |]. split; [exact E1 |]. split; [exact E2 |]. reflexivity.
Qed.

Example after_tick_30_reached : loop_body (empty_road 30) init = Some after_tick_30.
Proof. vm_compute. reflexivity. Qed.

Lemma yellow_expiry_starts_next_green_witness :
  exists queue_length waiting_time green_time fc self',
    get_lane_metrics (empty_road 33) ["E2C_0"; "E2C_1"; "W2C_0"; "W2C_1"]%string
    = Some (queue_length, waiting_time)
    /\ compute_green_time (fuzzy_controller after_tick_30) (inject_Z queue_length)
         waiting_time = Some (green_time, fc)
    /\ sequencer_tick (empty_road 33) after_tick_30 = Some self'
    /\ current_phase self' = "EW_green"%string
    /\ current_green_time self' = green_time
    /\ phase_start_time self' = simulation_getTime (empty_road 33)
    /\ phase_changes (stats self') = phase_changes (stats after_tick_30).
Proof.
  apply (proj1 yellow_expiry_starts_next_green (empty_road 33) after_tick_30).
  - reflexivity.
  - cbn. lra.
Defined.

(** ** Further properties of the sequencer *)

(** The three ways one iteration can go, with the state it produces. *)
Lemma loop_body_cases (traci : Traci) (self : TrafficSimulation) :
  defined_phase (current_phase self) ->
  loop_body traci self = Some (record_vehicles traci self)
  \/ (exists i,
        is_yellow (spec_next_phase (current_phase self)) = true
        /\ phases !! spec_next_phase (current_phase self) = Some i
        /\ loop_body traci self
           = Some (record_vehicles traci
                     (count_phase_change
                        (switched traci (spec_next_phase (current_phase self)) i self))))
  \/ (exists i queue_length waiting_time green_time fc,
        is_yellow (spec_next_phase (current_phase self)) = false
        /\ phases !! spec_next_phase (current_phase self) = Some i
        /\ 10 <= green_time /\ green_time <= 90
        /\ loop_body traci self
           = Some (record_vehicles traci
                     (switched traci (spec_next_phase (current_phase self)) i
                        (set_current_green_time green_time
                           (sampled fc queue_length waiting_time self))))).
Proof.
  unfold loop_body.
  intros [H | [H | [H | H]]].
  - rewrite (tick_NS_green _ _ H), H.
    destruct (Qle_bool _ _); [right; left | left; reflexivity].
    exists 1%nat. repeat split.
  - rewrite (tick_NS_yellow _ _ H), H.
    destruct (Qle_bool _ _); [right; right | left; reflexivity].
    destruct (compute_optimal_green_time_eq traci self _ _ lanes_EW)
      as (ql & wt & g & fc & _ & Eg & E).
    destruct (compute_green_time_eq (fuzzy_controller self) (inject_Z ql) wt)
      as (fc' & Eg').
    rewrite Eg in Eg'. injection Eg' as -> ->.
    destruct (infer_bounds
                (fun t => trimf (queue_length_abc t) (Qmax 0 (Qmin 50 (inject_Z ql))))
                (fun t => trimf (waiting_time_abc t) (Qmax 0 (Qmin 300 wt))))
      as [Hlo Hhi].
    rewrite E. eexists 2%nat, ql, wt, _, _. repeat split; assumption.
  - rewrite (tick_EW_green _ _ H), H.
    destruct (Qle_bool _ _); [right; left | left; reflexivity].
    exists 3%nat. repeat split.
  - rewrite (tick_EW_yellow _ _ H), H.
    destruct (Qle_bool _ _); [right; right | left; reflexivity].
    destruct (compute_optimal_green_time_eq traci self _ _ lanes_NS)
      as (ql & wt & g & fc & _ & Eg & E).
    destruct (compute_green_time_eq (fuzzy_controller self) (inject_Z ql) wt)
      as (fc' & Eg').
    rewrite Eg in Eg'. injection Eg' as -> ->.
    destruct (infer_bounds
                (fun t => trimf (queue_length_abc t) (Qmax 0 (Qmin 50 (inject_Z ql))))
                (fun t => trimf (waiting_time_abc t) (Qmax 0 (Qmin 300 wt))))
      as [Hlo Hhi].
    rewrite E. eexists 0%nat, ql, wt, _, _. repeat split; assumption.
Qed.

Lemma waiting_accumulated (traci : Traci) (vehicles : list string) (acc : Q) :
  fold_left (fun acc veh => acc + vehicle_getWaitingTime traci veh) vehicles acc
  == acc + Qsum (map (vehicle_getWaitingTime traci) vehicles).
Proof.
  revert acc. induction vehicles as [| veh vehicles IH]; intros acc.
  - cbn. ring.
  - cbn [fold_left map]. rewrite IH. unfold Qsum. cbn [fold_right]. ring.
Qed.

(** The books of a whole run: the commands sent, the samples taken, the
    green duration, the step counter and the accumulated waiting time. *)
Lemma run_loop_bookkeeping (reports : list Traci) :
  forall self,
    defined_phase (current_phase self) ->
    exists self' cmds,
      run_loop reports self = Some self'
      /\ setPhase_calls self' = setPhase_calls self ++ cmds
      /\ Forall2 (fun cmd phase => fst cmd = tl_id /\ phases !! phase = Some (snd cmd))
           cmds (transitions reports self)
      /\ length (avg_queue_lengths (stats self'))
         = (length (avg_queue_lengths (stats self))
            + length (green_entries (transitions reports self)))%nat
      /\ length (avg_waiting_times (stats self'))
         = (length (avg_waiting_times (stats self))
            + length (green_entries (transitions reports self)))%nat
      /\ (current_green_time self' = current_green_time self
          \/ (10 <= current_green_time self' /\ current_green_time self' <= 90))
      /\ step self' = (step self + length reports)%nat
      /\ total_waiting_time (stats self')
         == total_waiting_time (stats self) + Qsum (map simulation_waiting reports).
Proof.
  induction reports as [| traci reports IH]; intros self Hdef.
  - exists self, []. cbn. rewrite app_nil_r.
    repeat split; try lia; [constructor | left; reflexivity | ring].
  - destruct (spec_next_phase_defined _ Hdef) as [Hnext Hneq].
    cbn [run_loop transitions].
    destruct (loop_body_cases traci self Hdef)
      as [E | [(i & Hy & Hi & E) | (i & ql & wt & g & fc & Hy & Hi & Hlo & Hhi & E)]];
      rewrite E.
    + destruct (IH (record_vehicles traci self) Hdef)
        as (self' & cmds & Er & Hc & Hf & Hq & Hw & Hg & Hs & Ht).
      exists self', cmds. cbn [current_phase record_vehicles].
      rewrite String.eqb_refl.
      cbn in Hc, Hq, Hw, Hg, Hs, Ht.
      rewrite waiting_accumulated in Ht.
      split; [exact Er |]. split; [exact Hc |]. split; [exact Hf |].
      split; [exact Hq |]. split; [exact Hw |]. split; [exact Hg |].
      split; [cbn [length]; lia |].
      rewrite Ht. cbn [map]. unfold Qsum at 3. cbn [fold_right].
      fold (Qsum (map simulation_waiting reports)). unfold simulation_waiting at 2. ring.
    + match type of E with _ = Some ?x => set (self1 := x) in * end.
      destruct (IH self1 Hnext)
        as (self' & cmds & Er & Hc & Hf & Hq & Hw & Hg & Hs & Ht).
      exists self', ((tl_id, i) :: cmds).
      change (current_phase self1) with (spec_next_phase (current_phase self)).
      rewrite Hneq. unfold green_entries. cbn [List.filter]. rewrite Hy. cbn [negb].
      fold (green_entries (transitions reports self1)).
      cbn in Hc, Hq, Hw, Hg, Hs, Ht.
      rewrite waiting_accumulated in Ht.
      split; [exact Er |].
      split; [rewrite Hc, <- app_assoc; reflexivity |].
      split; [constructor; [split; [reflexivity | exact Hi] | exact Hf] |].
      split; [exact Hq |]. split; [exact Hw |]. split; [exact Hg |].
      split; [cbn [length]; lia |].
      rewrite Ht. cbn [map]. unfold Qsum at 3. cbn [fold_right].
      fold (Qsum (map simulation_waiting reports)). unfold simulation_waiting at 2. ring.
    + match type of E with _ = Some ?x => set (self1 := x) in * end.
      destruct (IH self1 Hnext)
        as (self' & cmds & Er & Hc & Hf & Hq & Hw & Hg & Hs & Ht).
      exists self', ((tl_id, i) :: cmds).
      change (current_phase self1) with (spec_next_phase (current_phase self)).
      rewrite Hneq. unfold green_entries. cbn [List.filter]. rewrite Hy. cbn [negb].
      fold (green_entries (transitions reports self1)).
      cbn in Hc, Hq, Hw, Hg, Hs, Ht.
      rewrite waiting_accumulated in Ht.
      rewrite length_app in Hq, Hw. cbn [length] in Hq, Hw.
      split; [exact Er |].
      split; [rewrite Hc, <- app_assoc; reflexivity |].
      split; [constructor; [split; [reflexivity | exact Hi] | exact Hf] |].
      split; [cbn [length]; lia |]. split; [cbn [length]; lia |].
      split.
      { right. destruct Hg as [-> | Hg]; [split; assumption | exact Hg]. }
      split; [cbn [length]; lia |].
      rewrite Ht. cbn [map]. unfold Qsum at 3. cbn [fold_right].
      fold (Qsum (map simulation_waiting reports)). unfold simulation_waiting at 2. ring.
Qed.

(** ** Further properties of the decision engine *)

(** X1: the rule table of [create_rules] is a function of the antecedent
    pair: every combination of a queue label and a waiting label has a
    rule, and no combination has two different conclusions. *)
Theorem rule_table_function (tq : QueueTerm) (tw : WaitTerm) :
  exists g,
    In (mkRule tq tw g) rules
    /\ forall g', In (mkRule tq tw g') rules -> g' = g.
Proof.
  destruct tq, tw; eexists; (split; [cbn; eauto 10 |]);
    intros g' H; cbn in H;
    repeat (destruct H as [H | H]; [try discriminate H; congruence |]);
    destruct H.
Qed.

(** X2: the rule table is monotone: a rule whose queue label and waiting
    label are both at least as high as those of another rule never
    concludes a shorter green. *)
Theorem rule_table_monotone (r r' : Rule) :
  In r rules -> In r' rules ->
  (QueueTerm_rank (rule_queue r) <= QueueTerm_rank (rule_queue r'))%nat ->
  (WaitTerm_rank (rule_wait r) <= WaitTerm_rank (rule_wait r'))%nat ->
  (GreenTerm_rank (rule_green r) <= GreenTerm_rank (rule_green r'))%nat.
Proof.
  unfold rules. cbn [In].
  intros H H'.
  repeat (destruct H as [<- | H]); try destruct H;
    repeat (destruct H' as [<- | H']); try destruct H'; cbn; lia.
Qed.

Lemma rule_table_monotone_witness :
  (GreenTerm_rank (rule_green (mkRule q_low w_medium g_short))
   <= GreenTerm_rank (rule_green (mkRule q_high w_medium g_long)))%nat.
Proof.
  apply (rule_table_monotone (mkRule q_low w_medium g_short)
           (mkRule q_high w_medium g_long)); cbn; auto 10.
Defined.

Lemma Qmin_zero_r (s m : Q) : 0 <= s -> m == 0 -> Qmin s m == 0.
Proof.
  intros Hs Hm. rewrite Q.min_r; [exact Hm | rewrite Hm; exact Hs].
Qed.

Lemma fold_Qmax_upper (v : Q) (l : list Q) :
  In v l -> v <= fold_right Qmax 0 l.
Proof.
  induction l as [| x l IH]; cbn [In fold_right]; [tauto |].
  intros [-> | H].
  - apply Q.le_max_l.
  - apply Qle_trans with (fold_right Qmax 0 l); [apply IH, H | apply Q.le_max_r].
Qed.

(** The aggregated strength of a label is at least the firing strength of
    each rule concluding it. *)
Lemma firing_le_aggregated dq dw (r : Rule) :
  In r rules ->
  firing_strength dq dw r <= aggregated_strength dq dw (rule_green r).
Proof.
  intros Hr. unfold aggregated_strength. apply fold_Qmax_upper.
  apply in_map. apply filter_In. split; [exact Hr |].
  destruct (rule_green r); reflexivity.
Qed.

(** X4: with a queue between 15 and 35 vehicles and a waiting time of at
    most 200 seconds only rules concluding [medium] fire: the aggregated
    strengths of [short] and [long] are zero and that of [medium] is
    positive.  The value returned is the inference on these strengths, and
    in the exact arithmetic of this development it equals 50. *)
Theorem medium_region_only_medium_fires
    (self : FuzzyTrafficController) (queue_len wait_time : Q) :
  15 <= queue_len -> queue_len <= 35 -> wait_time <= 200 ->
  let dq := fun t => trimf (queue_length_abc t) (Qmax 0 (Qmin 50 queue_len)) in
  let dw := fun t => trimf (waiting_time_abc t) (Qmax 0 (Qmin 300 wait_time)) in
  aggregated_strength dq dw g_short == 0
  /\ aggregated_strength dq dw g_long == 0
  /\ 0 < aggregated_strength dq dw g_medium
  /\ exists green_time self',
       compute_green_time self queue_len wait_time = Some (green_time, self')
       /\ green_time = infer dq dw
       /\ green_time == 50.
Proof.
  intros Hq1 Hq2 Hw dq dw.
  assert (Hc1 : 15 <= Qmax 0 (Qmin 50 queue_len)) by (apply clamp_ge; lra).
  assert (Hc2 : Qmax 0 (Qmin 50 queue_len) <= 35) by (apply clamp_le; lra).
  assert (Hc3 : Qmax 0 (Qmin 300 wait_time) <= 200) by (apply clamp_le; lra).
  assert (Hc4 : 0 <= Qmax 0 (Qmin 300 wait_time)) by apply Q.le_max_l.
  assert (Hshort : aggregated_strength dq dw g_short == 0).
  { apply aggregated_strength_zero. intros r Hr Hg.
    unfold rules in Hr. cbn [In] in Hr.
    repeat (destruct Hr as [<- | Hr]; [try discriminate Hg |]); [| | destruct Hr];
      unfold firing_strength, dq; cbn [rule_queue rule_wait queue_length_abc];
      (apply Qmin_zero_l; [apply trimf_zero_right; lra | apply trimf_nonneg]). }
  assert (Hlong : aggregated_strength dq dw g_long == 0).
  { apply aggregated_strength_zero. intros r Hr Hg.
    unfold rules in Hr. cbn [In] in Hr.
    repeat (destruct Hr as [<- | Hr]; [try discriminate Hg |]); [| | | destruct Hr];
      unfold firing_strength, dq, dw;
      cbn [rule_queue rule_wait queue_length_abc waiting_time_abc].
    - apply Qmin_zero_r; [apply trimf_nonneg | apply trimf_zero_left; lra].
    - apply Qmin_zero_l; [apply trimf_zero_left; lra | apply trimf_nonneg].
    - apply Qmin_zero_l; [apply trimf_zero_left; lra | apply trimf_nonneg]. }
  assert (Hmedium : 0 < aggregated_strength dq dw g_medium).
  { assert (Hdq : 0 < dq q_medium).
    { unfold dq. cbn [queue_length_abc]. apply trimf_positive. left. split; lra. }
    destruct (Qlt_le_dec (Qmax 0 (Qmin 300 wait_time)) 100) as [Hlt | Hge].
    - apply Qlt_le_trans with (firing_strength dq dw (mkRule q_medium w_short g_medium)).
      + unfold firing_strength. cbn [rule_queue rule_wait].
        apply Q.min_glb_lt; [exact Hdq |].
        unfold dw. cbn [waiting_time_abc]. apply trimf_positive.
        destruct (Qlt_le_dec 0 (Qmax 0 (Qmin 300 wait_time)));
          [left; split; assumption | right; lra].
      + apply (firing_le_aggregated dq dw (mkRule q_medium w_short g_medium)).
        cbn. auto 10.
    - apply Qlt_le_trans with (firing_strength dq dw (mkRule q_medium w_medium g_medium)).
      + unfold firing_strength. cbn [rule_queue rule_wait].
        apply Q.min_glb_lt; [exact Hdq |].
        unfold dw. cbn [waiting_time_abc]. apply trimf_positive. left. split; lra.
      + apply (firing_le_aggregated dq dw (mkRule q_medium w_medium g_medium)).
        cbn. auto 10. }
  split; [exact Hshort |]. split; [exact Hlong |]. split; [exact Hmedium |].
  destruct (compute_green_time_eq self queue_len wait_time) as [self' E].
  eexists _, self'. split; [exact E |]. split; [reflexivity |].
  apply Qle_antisym.
  - apply infer_le_midpoint. exact Hlong.
  - apply infer_ge_midpoint. exact Hshort.
Qed.

Lemma medium_region_only_medium_fires_witness :
  let dq := fun t => trimf (queue_length_abc t) (Qmax 0 (Qmin 50 15)) in
  let dw := fun t => trimf (waiting_time_abc t) (Qmax 0 (Qmin 300 200)) in
  aggregated_strength dq dw g_short == 0
  /\ aggregated_strength dq dw g_long == 0
  /\ 0 < aggregated_strength dq dw g_medium
  /\ exists green_time self',
       compute_green_time setup_fuzzy_system 15 200 = Some (green_time, self')
       /\ green_time = infer dq dw
       /\ green_time == 50.
Proof.
  apply (medium_region_only_medium_fires setup_fuzzy_system 15 200); lra.
Defined.

Lemma clamp_above (hi x : Q) : 0 < hi -> hi <= x -> Qmax 0 (Qmin hi x) = hi.
Proof.
  intros Hhi Hx. unfold Qmax, Qmin, GenericMinMax.gmax, GenericMinMax.gmin.
  assert (H1 : (0 ?= hi) = Lt) by (apply Qlt_alt; exact Hhi).
  destruct (hi ?= x) eqn:E.
  - rewrite H1. reflexivity.
  - rewrite H1. reflexivity.
  - apply Qgt_alt in E. lra.
Qed.

Lemma clamp_below (hi x : Q) : 0 < hi -> x <= 0 -> Qmax 0 (Qmin hi x) = 0.
Proof.
  intros Hhi Hx. unfold Qmax, Qmin, GenericMinMax.gmax, GenericMinMax.gmin.
  assert (E : (hi ?= x) = Gt) by (apply Qgt_alt; lra).
  rewrite E.
  destruct (0 ?= x) eqn:E0; try reflexivity.
  apply Qlt_alt in E0. lra.
Qed.

(** X5: the inputs saturate: a queue of 50 or more is treated as a queue
    of 50, a negative queue as 0, a waiting time of 300 or more as 300 and
    a negative waiting time as 0; the result and the session left behind
    are the same. *)
Theorem compute_green_time_saturates
    (self : FuzzyTrafficController) (queue_len wait_time : Q) :
  (50 <= queue_len ->
   compute_green_time self queue_len wait_time = compute_green_time self 50 wait_time)
  /\ (queue_len <= 0 ->
      compute_green_time self queue_len wait_time = compute_green_time self 0 wait_time)
  /\ (300 <= wait_time ->
      compute_green_time self queue_len wait_time = compute_green_time self queue_len 300)
  /\ (wait_time <= 0 ->
      compute_green_time self queue_len wait_time = compute_green_time self queue_len 0).
Proof.
  unfold compute_green_time.
  repeat split; intros H.
  - rewrite (clamp_above 50 queue_len), (clamp_above 50 50) by lra. reflexivity.
  - rewrite (clamp_below 50 queue_len), (clamp_below 50 0) by lra. reflexivity.
  - rewrite (clamp_above 300 wait_time), (clamp_above 300 300) by lra. reflexivity.
  - rewrite (clamp_below 300 wait_time), (clamp_below 300 0) by lra. reflexivity.
Qed.

Lemma compute_green_time_saturates_witness :
  compute_green_time setup_fuzzy_system 80 (-5)
  = compute_green_time setup_fuzzy_system 50 (-5)
  /\ compute_green_time setup_fuzzy_system (-3) 400
     = compute_green_time setup_fuzzy_system 0 400
  /\ compute_green_time setup_fuzzy_system 80 400
     = compute_green_time setup_fuzzy_system 80 300
  /\ compute_green_time setup_fuzzy_system 80 (-5)
     = compute_green_time setup_fuzzy_system 80 0.
Proof.
  destruct (compute_green_time_saturates setup_fuzzy_system 80 (-5)) as (H1 & _ & _ & H4).
  destruct (compute_green_time_saturates setup_fuzzy_system (-3) 400) as (_ & H2 & _ & _).
  destruct (compute_green_time_saturates setup_fuzzy_system 80 400) as (_ & _ & H3 & _).
  split; [| split; [| split]]; [apply H1 | apply H2 | apply H3 | apply H4]; lra.
Defined.

(** ** Further properties of the sensor aggregation *)








(** ** Commands, samples and statistics of a run *)

Lemma phases_undefined (phase_name : string) :
  ~ defined_phase phase_name -> phases !! phase_name = None.
Proof.
  unfold defined_phase, phases. intros H.
  rewrite !lookup_insert_ne by (intros E; apply H; rewrite <- E; tauto).
  apply lookup_empty.
Qed.

(** X6: [set_traffic_light_phase] accepts exactly the four keys of
    [self.phases]: for one of them it sends one command with an index
    below 4 and makes it the current phase, starting at the current time;
    for any other name it fails and no command is sent. *)
Theorem set_traffic_light_phase_keys
    (traci : Traci) (self : TrafficSimulation) (phase_name : string) :
  (defined_phase phase_name ->
   exists phase_index self',
     phases !! phase_name = Some phase_index
     /\ (phase_index < 4)%nat
     /\ set_traffic_light_phase traci self phase_name = Some self'
     /\ current_phase self' = phase_name
     /\ phase_start_time self' = simulation_getTime traci
     /\ setPhase_calls self' = setPhase_calls self ++ [(tl_id, phase_index)])
  /\ (~ defined_phase phase_name ->
      set_traffic_light_phase traci self phase_name = None).
Proof.
  split.
  - unfold set_traffic_light_phase.
    intros [-> | [-> | [-> | ->]]].
    + exists 0%nat. rewrite phases_NS_green. eexists. repeat split. lia.
    + exists 1%nat. rewrite phases_NS_yellow. eexists. repeat split. lia.
    + exists 2%nat. rewrite phases_EW_green. eexists. repeat split. lia.
    + exists 3%nat. rewrite phases_EW_yellow. eexists. repeat split. lia.
  - intros H. unfold set_traffic_light_phase.
    rewrite (phases_undefined _ H). reflexivity.
Qed.

Lemma set_traffic_light_phase_keys_witness :
  (exists phase_index self',
     phases !! "EW_green"%string = Some phase_index
     /\ (phase_index < 4)%nat
     /\ set_traffic_light_phase (empty_road 7) init "EW_green" = Some self'
     /\ current_phase self' = "EW_green"%string
     /\ phase_start_time self' = simulation_getTime (empty_road 7)
     /\ setPhase_calls self' = setPhase_calls init ++ [(tl_id, phase_index)])
  /\ set_traffic_light_phase (empty_road 7) init "NS_red" = None.
Proof.
  split.
  - apply (proj1 (set_traffic_light_phase_keys (empty_road 7) init "EW_green")).
    right. right. left. reflexivity.
  - apply (proj2 (set_traffic_light_phase_keys (empty_road 7) init "NS_red")).
    unfold defined_phase. intros [H | [H | [H | H]]]; discriminate H.
Defined.

Lemma run_loop_in_sync (reports : list Traci) :
  forall self,
    defined_phase (current_phase self) ->
    in_sync self ->
    exists self', run_loop reports self = Some self' /\ in_sync self'.
Proof.
  induction reports as [| traci reports IH]; intros self Hdef Hsync.
  - exists self. split; [reflexivity | exact Hsync].
  - destruct (spec_next_phase_defined _ Hdef) as [Hnext _].
    cbn [run_loop].
    destruct (loop_body_cases traci self Hdef)
      as [E | [(i & _ & Hi & E) | (i & ql & wt & g & fc & _ & Hi & _ & _ & E)]];
      rewrite E.
    + apply IH; [exact Hdef | exact Hsync].
    + apply IH; [exact Hnext |].
      intros cmd. cbn. rewrite last_snoc. intros [= <-]. split; [reflexivity | exact Hi].
    + apply IH; [exact Hnext |].
      intros cmd. cbn. rewrite last_snoc. intros [= <-]. split; [reflexivity | exact Hi].
Qed.

(** X7: the simulator is sent exactly one command per transition, in
    order, each for traffic light "0" and with the index of the phase
    entered; so whenever a command has been sent, the last one is for the
    phase the sequencer is in. *)
Theorem commands_follow_transitions (duration : nat) (reports : list Traci) :
  exists self,
    run_simulation duration reports = Some self
    /\ Forall2 (fun cmd phase => fst cmd = tl_id /\ phases !! phase = Some (snd cmd))
         (setPhase_calls self) (transitions (take duration reports) init)
    /\ forall cmd,
         last (setPhase_calls self) = Some cmd ->
         phases !! current_phase self = Some (snd cmd).
Proof.
  unfold run_simulation.
  destruct (run_loop_bookkeeping (take duration reports) init init_defined)
    as (self & cmds & E & Hc & Hf & _).
  destruct (run_loop_in_sync (take duration reports) init init_defined)
    as (self2 & E2 & Hsync).
  { intros cmd H. discriminate H. }
  rewrite E in E2. injection E2 as <-.
  exists self. split; [exact E |]. cbn in Hc. rewrite Hc.
  split; [exact Hf |].
  intros cmd H. rewrite <- Hc in H. apply (Hsync cmd H).
Qed.

Lemma commands_follow_transitions_witness :
  exists self,
    run_simulation 3 [empty_road 30; empty_road 33; empty_road 60; empty_road 63]
    = Some self
    /\ last (setPhase_calls self) = Some (tl_id, 3%nat)
    /\ phases !! current_phase self = Some 3%nat.
Proof.
  destruct (commands_follow_transitions 3
              [empty_road 30; empty_road 33; empty_road 60; empty_road 63])
    as (self & E & _ & H).
  exists self. split; [exact E |].
  assert (Hl : last (setPhase_calls self) = Some (tl_id, 3%nat)).
  { revert E. vm_compute. intros [= <-]. reflexivity. }
  split; [exact Hl | exact (H _ Hl)].
Defined.

Lemma np_mean_nonempty (x : Q) (samples : list Q) :
  np_mean (x :: samples)
  = Some (Qsum (x :: samples) / inject_Z (Z.of_nat (length (x :: samples)))).
Proof.
  unfold np_mean. apply truediv_positive. cbn [length]. lia.
Qed.

(** What [print_statistics] prints for any state. *)
Lemma print_statistics_eq (self : TrafficSimulation) :
  exists st,
    print_statistics self = Some st
    /\ printed_phase_changes st = phase_changes (stats self)
    /\ printed_vehicles st = total_vehicles (stats self)
    /\ (avg_queue_lengths (stats self) = [] <-> printed_avg_queue st = None)
    /\ (avg_waiting_times (stats self) = [] <-> printed_avg_wait st = None)
    /\ (forall m, printed_avg_queue st = Some m ->
          m == Qsum (map inject_Z (avg_queue_lengths (stats self)))
               / inject_Z (Z.of_nat (length (avg_queue_lengths (stats self)))))
    /\ (forall m, printed_avg_wait st = Some m ->
          m == Qsum (avg_waiting_times (stats self))
               / inject_Z (Z.of_nat (length (avg_waiting_times (stats self))))).
Proof.
  unfold print_statistics.
  destruct (avg_queue_lengths (stats self)) as [| q qs] eqn:Eq;
    destruct (avg_waiting_times (stats self)) as [| w ws] eqn:Ew;
    cbn [map]; rewrite ?np_mean_nonempty; cbn [option_map mbind option_bind];
    eexists; (split; [reflexivity |]); cbn;
    repeat split; try discriminate; try congruence;
    intros m [= <-]; rewrite ?length_map; reflexivity.
Qed.

(** X15: [print_statistics] never fails, whatever the state: the two
    averages are taken only of non-empty sample lists, each printed average
    is the sum of its samples over their number, and an average is left
    out exactly when its list has no sample. *)
Theorem print_statistics_guarded (self : TrafficSimulation) :
  exists st,
    print_statistics self = Some st
    /\ printed_phase_changes st = phase_changes (stats self)
    /\ printed_vehicles st = total_vehicles (stats self)
    /\ (avg_queue_lengths (stats self) = [] <-> printed_avg_queue st = None)
    /\ (avg_waiting_times (stats self) = [] <-> printed_avg_wait st = None)
    /\ (forall m, printed_avg_queue st = Some m ->
          m == Qsum (map inject_Z (avg_queue_lengths (stats self)))
               / inject_Z (Z.of_nat (length (avg_queue_lengths (stats self)))))
    /\ (forall m, printed_avg_wait st = Some m ->
          m == Qsum (avg_waiting_times (stats self))
               / inject_Z (Z.of_nat (length (avg_waiting_times (stats self))))).
Proof. apply print_statistics_eq. Qed.

(** X8: in a run one sample of each kind is recorded per green phase
    entered and none otherwise, so the two sample lists always have the
    same length, and the statistics printed at the end leave out both
    averages exactly when no green phase was entered. *)
Theorem samples_per_green_entry (duration : nat) (reports : list Traci) :
  exists self st,
    run_simulation duration reports = Some self
    /\ length (avg_queue_lengths (stats self))
       = length (green_entries (transitions (take duration reports) init))
    /\ length (avg_waiting_times (stats self))
       = length (green_entries (transitions (take duration reports) init))
    /\ print_statistics self = Some st
    /\ (green_entries (transitions (take duration reports) init) = []
        <-> printed_avg_queue st = None /\ printed_avg_wait st = None).
Proof.
  unfold run_simulation.
  destruct (run_loop_bookkeeping (take duration reports) init init_defined)
    as (self & cmds & E & _ & _ & Hq & Hw & _).
  destruct (print_statistics_eq self) as (st & Ep & _ & _ & Hnq & Hnw & _).
  cbn in Hq, Hw.
  exists self, st. split; [exact E |]. split; [exact Hq |]. split; [exact Hw |].
  split; [exact Ep |].
  rewrite <- Hnq, <- Hnw.
  destruct (green_entries _); destruct (avg_queue_lengths _);
    destruct (avg_waiting_times _); cbn in Hq, Hw; try discriminate;
    split; try tauto; try discriminate; intros [? ?]; discriminate.
Qed.

(** X9: the green duration used by the sequencer is always between 10 and
    90 seconds: it starts at 30 and is only ever replaced by a result of
    the decision engine. *)
Theorem green_duration_within_universe (duration : nat) (reports : list Traci) :
  exists self,
    run_simulation duration reports = Some self
    /\ 10 <= current_green_time self /\ current_green_time self <= 90.
Proof.
  unfold run_simulation.
  destruct (run_loop_bookkeeping (take duration reports) init init_defined)
    as (self & cmds & E & _ & _ & _ & _ & Hg & _).
  exists self. split; [exact E |].
  destruct Hg as [-> | Hg]; [cbn; lra | exact Hg].
Qed.

Lemma print_statistics_guarded_witness :
  exists st m_queue m_wait,
    print_statistics two_samples = Some st
    /\ printed_avg_queue st = Some m_queue /\ m_queue == 4
    /\ printed_avg_wait st = Some m_wait /\ m_wait == 15.
Proof.
  destruct (print_statistics_guarded two_samples)
    as (st & E & _ & _ & Hnq & Hnw & Hq & Hw).
  destruct (printed_avg_queue st) as [mq |] eqn:Eq;
    [| discriminate (proj2 Hnq eq_refl)].
  destruct (printed_avg_wait st) as [mw |] eqn:Ew;
    [| discriminate (proj2 Hnw eq_refl)].
  exists st, mq, mw. split; [exact E |].
  split; [exact Eq |]. split; [rewrite (Hq mq eq_refl); reflexivity |].
  split; [exact Ew |]. rewrite (Hw mw eq_refl). reflexivity.
Defined.

Lemma samples_per_green_entry_witness :
  exists self st,
    run_simulation 4 [empty_road 30; empty_road 33; empty_road 60; empty_road 63]
    = Some self
    /\ length (avg_queue_lengths (stats self)) = 2%nat
    /\ length (avg_waiting_times (stats self)) = 2%nat
    /\ print_statistics self = Some st
    /\ ~ (printed_avg_queue st = None /\ printed_avg_wait st = None).
Proof.
  destruct (samples_per_green_entry 4
              [empty_road 30; empty_road 33; empty_road 60; empty_road 63])
    as (self & st & E & Hq & Hw & Ep & Hiff).
  exists self, st. split; [exact E |].
  split; [exact Hq |]. split; [exact Hw |]. split; [exact Ep |].
  intros Hn. apply Hiff in Hn. revert Hn. vm_compute. discriminate.
Defined.

(** X10: a green phase ends at the first tick at which the current green
    duration has elapsed: the sequencer then enters the yellow phase of the
    same direction, sends its command, restarts the phase clock and counts
    one phase change, without consulting the decision engine or taking a
    sample; before that the tick changes nothing. *)
Theorem green_expiry_starts_yellow :
  (forall traci self,
      current_phase self = "NS_green"%string ->
      current_green_time self <= simulation_getTime traci - phase_start_time self ->
      exists self',
        sequencer_tick traci self = Some self'
        /\ current_phase self' = "NS_yellow"%string
        /\ phase_start_time self' = simulation_getTime traci
        /\ phase_changes (stats self') = (phase_changes (stats self) + 1)%Z
        /\ current_green_time self' = current_green_time self
        /\ fuzzy_controller self' = fuzzy_controller self
        /\ avg_queue_lengths (stats self') = avg_queue_lengths (stats self)
        /\ avg_waiting_times (stats self') = avg_waiting_times (stats self)
        /\ setPhase_calls self' = setPhase_calls self ++ [(tl_id, 1%nat)])
  /\ (forall traci self,
         current_phase self = "EW_green"%string ->
         current_green_time self <= simulation_getTime traci - phase_start_time self ->
         exists self',
           sequencer_tick traci self = Some self'
           /\ current_phase self' = "EW_yellow"%string
           /\ phase_start_time self' = simulation_getTime traci
           /\ phase_changes (stats self') = (phase_changes (stats self) + 1)%Z
           /\ current_green_time self' = current_green_time self
           /\ fuzzy_controller self' = fuzzy_controller self
           /\ avg_queue_lengths (stats self') = avg_queue_lengths (stats self)
           /\ avg_waiting_times (stats self') = avg_waiting_times (stats self)
           /\ setPhase_calls self' = setPhase_calls self ++ [(tl_id, 3%nat)])
  /\ (forall traci self,
         current_phase self = "NS_green"%string
         \/ current_phase self = "EW_green"%string ->
         simulation_getTime traci - phase_start_time self < current_green_time self ->
         sequencer_tick traci self = Some self).
Proof.
  split; [| split].
  - intros traci self H Hel. apply Qle_bool_iff in Hel.
    rewrite (tick_NS_green _ _ H), Hel. eexists. split; [reflexivity |].
    cbn. repeat split.
  - intros traci self H Hel. apply Qle_bool_iff in Hel.
    rewrite (tick_EW_green _ _ H), Hel. eexists. split; [reflexivity |].
    cbn. repeat split.
  - intros traci self H Hel.
    assert (E : Qle_bool (current_green_time self)
                  (simulation_getTime traci - phase_start_time self) = false).
    { destruct (Qle_bool _ _) eqn:E; [| reflexivity].
      apply Qle_bool_iff in E. lra. }
    destruct H as [H | H].
    + rewrite (tick_NS_green _ _ H), E. reflexivity.
    + rewrite (tick_EW_green _ _ H), E. reflexivity.
Qed.

Lemma green_expiry_starts_yellow_witness :
  (exists self',
     sequencer_tick (empty_road 30) init = Some self'
     /\ current_phase self' = "NS_yellow"%string
     /\ phase_start_time self' = simulation_getTime (empty_road 30)
     /\ phase_changes (stats self') = (phase_changes (stats init) + 1)%Z
     /\ current_green_time self' = current_green_time init
     /\ fuzzy_controller self' = fuzzy_controller init
     /\ avg_queue_lengths (stats self') = avg_queue_lengths (stats init)
     /\ avg_waiting_times (stats self') = avg_waiting_times (stats init)
     /\ setPhase_calls self' = setPhase_calls init ++ [(tl_id, 1%nat)])
  /\ sequencer_tick (empty_road 29) init = Some init.
Proof.
  split.
  - apply (proj1 green_expiry_starts_yellow (empty_road 30) init).
    + reflexivity.
    + cbn. lra.
  - apply (proj2 (proj2 green_expiry_starts_yellow) (empty_road 29) init).
    + left. reflexivity.
    + cbn. lra.
Defined.

Lemma run_loop_snoc (reports : list Traci) (traci : Traci) :
  forall self,
    run_loop (reports ++ [traci]) self
    = match run_loop reports self with
      | Some self1 => loop_body traci self1
      | None => None
      end.
Proof.
  induction reports as [| r reports IH]; intros self.
  - cbn. destruct (loop_body traci self); reflexivity.
  - cbn [app run_loop]. destruct (loop_body r self); [apply IH | reflexivity].
Qed.

(** X12: of the two vehicle statistics, the waiting time accumulates over
    every tick of the run, while the vehicle count is overwritten at every
    tick and ends up as the number of vehicles in the last report only. *)
Theorem vehicle_statistics
    (reports : list Traci) (traci : Traci) (self : TrafficSimulation) :
  defined_phase (current_phase self) ->
  exists self',
    run_loop (reports ++ [traci]) self = Some self'
    /\ total_vehicles (stats self') = length (vehicle_getIDList traci)
    /\ total_waiting_time (stats self')
       == total_waiting_time (stats self)
          + Qsum (map simulation_waiting (reports ++ [traci])).
Proof.
  intros Hdef.
  destruct (run_loop_bookkeeping (reports ++ [traci]) self Hdef)
    as (self' & cmds & E & _ & _ & _ & _ & _ & _ & Ht).
  exists self'. split; [exact E |]. split; [| exact Ht].
  rewrite run_loop_snoc in E.
  destruct (run_loop_follows_cycle reports self Hdef) as (self1 & E1 & Hdef1 & _).
  rewrite E1 in E.
  destruct (loop_body_cases traci self1 Hdef1)
    as [E2 | [(i & _ & _ & E2) | (i & ql & wt & g & fc & _ & _ & _ & _ & E2)]];
    rewrite E2 in E; injection E as <-; reflexivity.
Qed.

Lemma vehicle_statistics_witness :
  exists self',
    run_loop ([two_vehicles 1; two_vehicles 2] ++ [empty_road 3]) init = Some self'
    /\ total_vehicles (stats self') = 0%nat
    /\ total_waiting_time (stats self') == 20.
Proof.
  destruct (vehicle_statistics [two_vehicles 1; two_vehicles 2] (empty_road 3) init
              init_defined)
    as (self' & E & Hv & Hw).
  exists self'. split; [exact E |]. split; [exact Hv |].
  rewrite Hw. reflexivity.
Defined.

Lemma lanes_unknown (direction : string) :
  direction <> "NS"%string -> direction <> "EW"%string -> lanes !! direction = None.
Proof.
  intros H1 H2. unfold lanes.
  rewrite !lookup_insert_ne by congruence. apply lookup_empty.
Qed.

(** X11: [compute_optimal_green_time] knows the two directions of
    [self.lanes] only: for "NS" or "EW" it returns a duration between 10
    and 90, records the queue length and the waiting time it measured as
    one sample each and touches neither the phase, the clock, the counter
    nor the commands; for any other direction it fails. *)
Theorem compute_optimal_green_time_directions
    (traci : Traci) (self : TrafficSimulation) (direction : string) :
  (direction = "NS"%string \/ direction = "EW"%string ->
   exists ls queue_length waiting_time green_time self',
     lanes !! direction = Some ls
     /\ get_lane_metrics traci ls = Some (queue_length, waiting_time)
     /\ compute_optimal_green_time traci self direction = Some (green_time, self')
     /\ 10 <= green_time /\ green_time <= 90
     /\ avg_queue_lengths (stats self')
        = avg_queue_lengths (stats self) ++ [queue_length]
     /\ avg_waiting_times (stats self')
        = avg_waiting_times (stats self) ++ [waiting_time]
     /\ current_phase self' = current_phase self
     /\ phase_start_time self' = phase_start_time self
     /\ phase_changes (stats self') = phase_changes (stats self)
     /\ setPhase_calls self' = setPhase_calls self)
  /\ (direction <> "NS"%string -> direction <> "EW"%string ->
      compute_optimal_green_time traci self direction = None).
Proof.
  split.
  - intros Hd.
    assert (Hl : exists ls, lanes !! direction = Some ls).
    { destruct Hd as [-> | ->]; eexists; [apply lanes_NS | apply lanes_EW]. }
    destruct Hl as [ls Hl].
    destruct (compute_optimal_green_time_eq traci self direction ls Hl)
      as (ql & wt & g & fc & E1 & E2 & E3).
    destruct (compute_green_time_eq (fuzzy_controller self) (inject_Z ql) wt)
      as (fc' & E2').
    rewrite E2 in E2'. injection E2' as -> ->.
    destruct (infer_bounds
                (fun t => trimf (queue_length_abc t) (Qmax 0 (Qmin 50 (inject_Z ql))))
                (fun t => trimf (waiting_time_abc t) (Qmax 0 (Qmin 300 wt))))
      as [Hlo Hhi].
    eexists ls, ql, wt, _, _. split; [exact Hl |]. split; [exact E1 |].
    split; [exact E3 |]. split; [exact Hlo |]. split; [exact Hhi |].
    cbn. repeat split.
  - intros H1 H2. unfold compute_optimal_green_time.
    rewrite (lanes_unknown _ H1 H2). reflexivity.
Qed.

Lemma compute_optimal_green_time_directions_witness :
  (exists ls queue_length waiting_time green_time self',
     lanes !! "NS"%string = Some ls
     /\ get_lane_metrics (two_vehicles 0) ls = Some (queue_length, waiting_time)
     /\ compute_optimal_green_time (two_vehicles 0) init "NS" = Some (green_time, self')
     /\ 10 <= green_time /\ green_time <= 90
     /\ avg_queue_lengths (stats self')
        = avg_queue_lengths (stats init) ++ [queue_length]
     /\ avg_waiting_times (stats self')
        = avg_waiting_times (stats init) ++ [waiting_time]
     /\ current_phase self' = current_phase init
     /\ phase_start_time self' = phase_start_time init
     /\ phase_changes (stats self') = phase_changes (stats init)
     /\ setPhase_calls self' = setPhase_calls init)
  /\ compute_optimal_green_time (two_vehicles 0) init "North" = None.
Proof.
  split.
  - apply (proj1 (compute_optimal_green_time_directions (two_vehicles 0) init "NS")).
    left. reflexivity.
  - apply (proj2 (compute_optimal_green_time_directions (two_vehicles 0) init "North"));
      discriminate.
Defined.

(** X16: no phase of a run is shorter than 3 seconds: in whatever state a
    run has left the sequencer, a tick less than 3 seconds after the
    current phase began changes nothing, because a yellow phase lasts 3
    seconds and a green phase at least 10. *)
Theorem minimum_phase_duration
    (duration : nat) (reports : list Traci) (traci : Traci) :
  exists self,
    run_simulation duration reports = Some self
    /\ (simulation_getTime traci - phase_start_time self < 3 ->
        sequencer_tick traci self = Some self).
Proof.
  unfold run_simulation.
  destruct (run_loop_bookkeeping (take duration reports) init init_defined)
    as (self & cmds & E & _ & _ & _ & _ & Hg & _).
  destruct (run_loop_follows_cycle (take duration reports) init init_defined)
    as (self2 & E2 & Hdef & _).
  rewrite E in E2. injection E2 as <-.
  exists self. split; [exact E |]. intros Hel.
  assert (Hmin : 10 <= current_green_time self).
  { destruct Hg as [-> | [Hg _]]; [cbn; lra | exact Hg]. }
  assert (Eg : Qle_bool (current_green_time self)
                 (simulation_getTime traci - phase_start_time self) = false).
  { destruct (Qle_bool _ _) eqn:Eb; [| reflexivity].
    apply Qle_bool_iff in Eb. lra. }
  destruct Hdef as [H | [H | [H | H]]].
  - rewrite (tick_NS_green _ _ H), Eg. reflexivity.
  - apply yellow_not_expired; [left; exact H | exact Hel].
  - rewrite (tick_EW_green _ _ H), Eg. reflexivity.
  - apply yellow_not_expired; [right; exact H | exact Hel].
Qed.

Lemma minimum_phase_duration_witness :
  exists self,
    run_simulation 2 [empty_road 30; empty_road 33; empty_road 60] = Some self
    /\ sequencer_tick (empty_road 35) self = Some self.
Proof.
  destruct (minimum_phase_duration 2 [empty_road 30; empty_road 33; empty_road 60]
              (empty_road 35))
    as (self & E & H).
  exists self. split; [exact E |]. apply H.
  revert E. vm_compute. intros [= <-]. reflexivity.
Defined.
